(** * unblob/report.py: the report model, embedded in Rocq

    The Python module declares a family of frozen [attrs] classes (the
    reports), one converter ([_convert_exception_to_str]) and two class
    methods that look at the file system ([StatReport.from_path],
    [HashReport.from_path]).

    The embedding keeps Python values untyped, as the interpreter has
    them: a report is an instance carrying its class name and its slots,
    the class declarations form a table, and the behaviour [attr.define]
    generates ([__init__], the frozen [__setattr__], [attr.asdict]) is
    written once, over that table.  Functions that can raise return a
    [result]. *)

From Stdlib Require Import ZArith QArith Lia Ascii.
From stdpp Require Import gmap strings list pretty.
From Equations Require Import Equations.

Set Warnings "-register-all".
Open Scope Z_scope.

(** ** Python values *)

(** [class Severity(Enum)] *)
Inductive Severity := ERROR | WARNING.

(** [Severity.X.value] *)
Definition Severity_value (s : Severity) : string :=
  match s with ERROR => "ERROR" | WARNING => "WARNING" end.

(** One entry of a traceback: file, line number, function, source line. *)
Record frame := Frame {
  f_filename : string;
  f_lineno : Z;
  f_name : string;
  f_line : option string
}.

(** The class of an exception object: [__module__], the enclosing scope
    part of [__qualname__] (empty for a top-level class) and [__name__]. *)
Record exc_class := ExcClass {
  cls_module : string;
  cls_scope : string;
  cls_name : string
}.

(** [type(e).__qualname__] *)
Definition qualname (c : exc_class) : string := cls_scope c +:+ cls_name c.

(** An instance of [Exception]: its class, [str(e)], the frames of
    [e.__traceback__] (none when it was never raised) and the exception it
    is chained to: [Some (true, c)] is [__cause__] ([raise ... from c]),
    [Some (false, c)] is an unsuppressed [__context__]. *)
Inductive pyexc := Exc {
  exc_type : exc_class;
  exc_str : string;
  exc_traceback : list frame;
  exc_chained : option (bool * pyexc)
}.

(** The values the module handles.  A float is finite ([VFloat], the
    rational it denotes), infinite ([VInf], negative or not) or not a
    number ([VNaN]).  [VPath p] is [Path(p)], the path made of the string
    [p].  [VOpaque] stands for an object of any other class (named by its
    type), which the module only passes along.  Dictionaries keep
    insertion order, so they are association lists. *)
Inductive pyval :=
| VNone
| VBool (b : bool)
| VInt (z : Z)
| VFloat (q : Q)
| VInf (negative : bool)
| VNaN
| VStr (s : string)
| VBytes (b : list Byte.byte)
| VPath (p : string)
| VSeverity (s : Severity)
| VExc (e : pyexc)
| VOpaque (type_name : string)
| VList (l : list pyval)
| VTuple (l : list pyval)
| VSet (l : list pyval)
| VDict (d : list (pyval * pyval))
| VInst (cls : string) (slots : list (string * pyval)).

(** Exceptions the module raises or lets through. *)
Inductive pyerror :=
| ValueError (args : list pyval)
| TypeError (msg : string)
| AttributeError (name : string)
| FrozenInstanceError
| OSError (errno : Z) (filename : string).

Inductive result (A : Type) :=
| Ok (a : A)
| Raise (e : pyerror).
Arguments Ok {A} a.
Arguments Raise {A} e.

#[export] Instance result_ret : MRet result := fun A a => Ok a.

#[export] Instance result_bind : MBind result := fun A B k r =>
  match r with
  | Ok a => k a
  | Raise e => Raise e
  end.

Definition is_ok {A} (r : result A) : bool :=
  match r with Ok _ => true | Raise _ => false end.

(** [s] occurs in [t]. *)
Definition occurs_in (s t : string) : Prop :=
  exists pre post, t = pre +:+ s +:+ post.

(** [isinstance(obj, str)], [isinstance(obj, Exception)] *)
Definition isinstance_str (obj : pyval) : bool :=
  match obj with VStr _ => true | _ => false end.

Definition isinstance_Exception (obj : pyval) : bool :=
  match obj with VExc _ => true | _ => false end.

(** ** Exception capture *)

Module Traceback.

(** The double quote character. *)
Definition dquote : string := String (ascii_of_nat 34) "".

(** [StackSummary.format]: one entry per frame. *)
Definition format_frame (f : frame) : string :=
  "  File " +:+ dquote +:+ f_filename f +:+ dquote +:+ ", line "
    +:+ pretty (f_lineno f) +:+ ", in " +:+ f_name f +:+ "
" +:+ match f_line f with
    | Some l => "    " +:+ l +:+ "
"
    | None => ""
    end.

Definition traceback_header : string := "Traceback (most recent call last):
".

Definition cause_message : string := "
The above exception was the direct cause of the following exception:

".

Definition context_message : string := "
During handling of the above exception, another exception occurred:

".

(** [format_exception_only]: the qualified type name, prefixed by the
    module unless it is [__main__] or [builtins]. *)
Definition stype (c : exc_class) : string :=
  if bool_decide (cls_module c = "__main__") || bool_decide (cls_module c = "builtins")
  then qualname c
  else cls_module c +:+ "." +:+ qualname c.

(** [_format_final_exc_line] *)
Definition format_final_exc_line (etype valuestr : string) : string :=
  if bool_decide (valuestr = "") then etype +:+ "
"
  else etype +:+ ": " +:+ valuestr +:+ "
".

(** The lines of one exception of the chain. *)
Definition format_one (c : exc_class) (s : string) (tb : list frame) : list string :=
  match tb with
  | [] => []
  | _ :: _ => traceback_header :: map format_frame tb
  end ++ [format_final_exc_line (stype c) s].

(** [traceback.format_exception(type(e), e, e.__traceback__)]: the
    chained exception first, then the banner, then [e] itself. *)
Fixpoint format_exception (e : pyexc) : list string :=
  match e with
  | Exc c s tb chained =>
      match chained with
      | Some (is_cause, e') =>
          format_exception e'
            ++ [if is_cause : bool then cause_message else context_message]
      | None => []
      end ++ format_one c s tb
  end.

End Traceback.

(** ["".join(lines)] *)
Definition join (lines : list string) : string :=
  fold_right String.app "" lines.

(** [_convert_exception_to_str] *)
Definition _convert_exception_to_str (obj : pyval) : result string :=
  match obj with
  | VStr s => Ok s
  | VExc e => Ok (join (Traceback.format_exception e))
  | _ => Raise (ValueError [VStr "Invalid exception object"; obj])
  end.

(** ** The file system, as [lstat], [readlink] and [open] see it *)

(** The two fields of [os.stat_result] the module reads. *)
Record stat_result := StatResult {
  st_mode : Z;
  st_size : Z
}.

(** What a path names: its metadata, the stored target when it is a
    symbolic link whose target may be read, and the bytes [open("rb")]
    yields when it may be opened for reading. *)
Record inode := Inode {
  i_stat : stat_result;
  i_target : option string;
  i_data : option (list Byte.byte)
}.

Definition ENOENT : Z := 2.
Definition EACCES : Z := 13.
Definition EINVAL : Z := 22.

(** The standard library's [stat] module. *)
Module stat.

Definition S_IFDIR : Z := 0x4000.  (* 0o040000 *)
Definition S_IFREG : Z := 0x8000.  (* 0o100000 *)
Definition S_IFLNK : Z := 0xA000.  (* 0o120000 *)

(** [S_IFMT(mode) = mode & 0o170000] *)
Definition S_IFMT (mode : Z) : Z := Z.land mode 0xF000.

Definition S_ISDIR (mode : Z) : bool := S_IFMT mode =? S_IFDIR.
Definition S_ISREG (mode : Z) : bool := S_IFMT mode =? S_IFREG.
Definition S_ISLNK (mode : Z) : bool := S_IFMT mode =? S_IFLNK.

End stat.

Section FileSystem.

Variable fs : gmap string inode.

(** [path.lstat()]: the metadata of the path itself; a symbolic link is
    not followed. *)
Definition lstat (path : string) : result stat_result :=
  match fs !! path with
  | Some i => Ok (i_stat i)
  | None => Raise (OSError ENOENT path)
  end.

(** [os.readlink(path)]: [EINVAL] when the path is not a symbolic
    link. *)
Definition readlink (path : string) : result string :=
  match fs !! path with
  | None => Raise (OSError ENOENT path)
  | Some i =>
      if stat.S_ISLNK (st_mode (i_stat i)) then
        match i_target i with
        | Some t => Ok t
        | None => Raise (OSError EACCES path)
        end
      else Raise (OSError EINVAL path)
  end.

(** [path.open("rb")]: the bytes still to be read. *)
Definition open_rb (path : string) : result (list Byte.byte) :=
  match fs !! path with
  | None => Raise (OSError ENOENT path)
  | Some i =>
      match i_data i with
      | Some bs => Ok bs
      | None => Raise (OSError EACCES path)
      end
  end.

End FileSystem.

(** ** attrs classes *)

(** The annotation of an attribute. *)
Inductive pytype :=
| TStr | TInt | TBool | TBytes | TFloat | TPath | TSeverity
| TSTR                      (* [STR = Union[str, Exception]] *)
| TList (t : pytype)
| TSet (t : pytype)
| TOptional (t : pytype)
| TInstance (cls : string). (* an instance of the class or of a subclass *)

(** One [attr.Attribute]: name, annotation, default ([None] is attrs'
    [NOTHING]) and converter. *)
Record attribute := Attribute {
  a_name : string;
  a_type : pytype;
  a_default : option pyval;
  a_converter : option (pyval -> result pyval)
}.

(** A class decorated with [@attr.define(kw_only=..., frozen=...)]: its
    name, its base, the decorator's flags and the attributes written in
    its own body, in order. *)
Inductive pyclass := PyClass {
  c_name : string;
  c_base : option pyclass;
  c_kw_only : bool;
  c_frozen : bool;
  c_own : list attribute
}.

Module attrs.

(** The own attributes of a class and of its bases, most basic class
    first. *)
Fixpoint mro_own_attrs (c : pyclass) : list attribute :=
  match c with
  | PyClass _ base _ _ own =>
      match base with
      | Some b => mro_own_attrs b
      | None => []
      end ++ own
  end.

(** Those of the bases only ([reversed(cls.__mro__[1:-1])]). *)
Definition base_own_attrs (c : pyclass) : list attribute :=
  match c_base c with
  | Some b => mro_own_attrs b
  | None => []
  end.

(** "For each name, only keep the freshest definition i.e. the furthest
    at the back." *)
Fixpoint keep_freshest (l : list attribute) : list attribute :=
  match l with
  | [] => []
  | a :: l' =>
      if bool_decide (a_name a ∈ a_name <$> l') then keep_freshest l'
      else a :: keep_freshest l'
  end.

(** [_collect_base_attrs]: inherited attributes, without those the
    class redefines. *)
Definition collect_base_attrs (c : pyclass) : list attribute :=
  keep_freshest
    (filter (fun a => a_name a ∉ a_name <$> c_own c) (base_own_attrs c)).

(** [attr.fields(cls)]: inherited attributes, then the class's own. *)
Definition fields (c : pyclass) : list attribute :=
  collect_base_attrs c ++ c_own c.

(** Binding one keyword-only parameter of the generated [__init__]. *)
Definition bind_argument (kwargs : gmap string pyval) (a : attribute)
  : result (attribute * pyval) :=
  match kwargs !! a_name a with
  | Some v => Ok (a, v)
  | None =>
      match a_default a with
      | Some d => Ok (a, d)
      | None =>
          Raise (TypeError ("__init__() missing required keyword-only argument: "
                              +:+ a_name a))
      end
  end.

(** The body of the generated [__init__]: each slot receives the
    argument, passed through the converter when there is one. *)
Definition set_slot (av : attribute * pyval) : result (string * pyval) :=
  let '(a, v) := av in
  match a_converter a with
  | Some conv => v' ← conv v; Ok (a_name a, v')
  | None => Ok (a_name a, v)
  end.

(** The call of the class with keyword arguments [kwargs]. *)
Definition init (cls : pyclass) (kwargs : gmap string pyval) : result pyval :=
  if bool_decide (dom kwargs ⊆ list_to_set (a_name <$> fields cls)) then
    args ← mapM (bind_argument kwargs) (fields cls);
    slots ← mapM set_slot args;
    Ok (VInst (c_name cls) slots)
  else Raise (TypeError "__init__() got an unexpected keyword argument").

(** Reading an attribute of an instance. *)
Fixpoint lookup_slot (slots : list (string * pyval)) (name : string) : option pyval :=
  match slots with
  | [] => None
  | (k, v) :: rest => if bool_decide (k = name) then Some v else lookup_slot rest name
  end.

Definition getattr (self : pyval) (name : string) : result pyval :=
  match self with
  | VInst _ slots =>
      match lookup_slot slots name with
      | Some v => Ok v
      | None => Raise (AttributeError name)
      end
  | _ => Raise (AttributeError name)
  end.

(** What a dictionary accepts as a key. *)
Fixpoint hashable (v : pyval) : bool :=
  match v with
  | VList _ | VSet _ | VDict _ => false
  | VTuple l => forallb hashable l
  | VInst _ slots => forallb (fun kv => hashable kv.2) slots
  | _ => true
  end.

(** [_asdict_anything(val, is_key, ...)] with [attr.asdict]'s defaults
    ([recurse=True], [retain_collection_types=False], no filter, no
    serializer).  An instance becomes a dictionary from attribute names,
    a list, tuple or set becomes a list (a tuple when it is a key), a
    dictionary is rebuilt from its converted keys and values, anything
    else is returned as it is.  The slots of an instance are those of
    [attr.fields] of its class, in order, as [__init__] fills them. *)
Fixpoint asdict_anything (is_key : bool) (val : pyval) : result pyval :=
  match val with
  | VInst _ slots =>
      rv ← (fix go (l : list (string * pyval)) : result (list (pyval * pyval)) :=
              match l with
              | [] => Ok []
              | (name, v) :: l' =>
                  v' ← asdict_anything false v;
                  rest ← go l';
                  Ok ((VStr name, v') :: rest)
              end) slots;
      Ok (VDict rv)
  | VList l | VTuple l | VSet l =>
      items ← (fix go (l : list pyval) : result (list pyval) :=
                 match l with
                 | [] => Ok []
                 | i :: l' =>
                     i' ← asdict_anything false i;
                     rest ← go l';
                     Ok (i' :: rest)
                 end) l;
      Ok (if is_key then VTuple items else VList items)
  | VDict d =>
      rv ← (fix go (l : list (pyval * pyval)) : result (list (pyval * pyval)) :=
              match l with
              | [] => Ok []
              | (kk, vv) :: l' =>
                  kk' ← asdict_anything true kk;
                  vv' ← asdict_anything false vv;
                  rest ← go l';
                  if hashable kk' then Ok ((kk', vv') :: rest)
                  else Raise (TypeError "unhashable type")
              end) d;
      Ok (VDict rv)
  | _ => Ok val
  end.

(** [attr.asdict(inst)] *)
Definition asdict (inst : pyval) : result pyval :=
  match inst with
  | VInst _ _ => asdict_anything false inst
  | _ => Raise (TypeError "NotAnAttrsClassError")
  end.

Fixpoint update_slot (slots : list (string * pyval)) (name : string) (value : pyval)
  : list (string * pyval) :=
  match slots with
  | [] => [(name, value)]
  | (k, v) :: rest =>
      if bool_decide (k = name) then (k, value) :: rest
      else (k, v) :: update_slot rest name value
  end.

(** [object.__setattr__(self, name, value)], the setter every class
    inherits and the generated [__init__] of a frozen class fills the
    slots with: it binds a declared slot and asks the class nothing. *)
Definition object_setattr (cls : pyclass) (self : pyval) (name : string) (value : pyval)
  : result pyval :=
  match self with
  | VInst cn slots =>
      if bool_decide (name ∈ a_name <$> fields cls)
      then Ok (VInst cn (update_slot slots name value))
      else Raise (AttributeError name)
  | _ => Raise (AttributeError name)
  end.

(** The [__setattr__] and [__delattr__] of a class: those of a frozen
    class raise, whatever the name; otherwise a declared slot is bound
    or unbound. *)
Definition setattr (cls : pyclass) (self : pyval) (name : string) (value : pyval)
  : result pyval :=
  if c_frozen cls then Raise FrozenInstanceError
  else object_setattr cls self name value.

Definition delattr (cls : pyclass) (self : pyval) (name : string) : result pyval :=
  if c_frozen cls then Raise FrozenInstanceError
  else
    match self with
    | VInst cn slots =>
        match lookup_slot slots name with
        | Some _ => Ok (VInst cn (filter (fun kv => kv.1 ≠ name) slots))
        | None => Raise (AttributeError name)
        end
    | _ => Raise (AttributeError name)
    end.

End attrs.

(** ** The classes of the module *)

(** An attribute with only an annotation, and one with a default. *)
Definition required (name : string) (t : pytype) : attribute :=
  Attribute name t None None.

Definition with_default (name : string) (t : pytype) (d : pyval) : attribute :=
  Attribute name t (Some d) None.

Definition Report : pyclass :=
  PyClass "Report" None true true [].

Definition ErrorReport : pyclass :=
  PyClass "ErrorReport" (Some Report) true true
    [required "severity" TSeverity].

(** The converter of [UnknownError.exception]. *)
Definition exception_converter (obj : pyval) : result pyval :=
  s ← _convert_exception_to_str obj; Ok (VStr s).

Definition UnknownError : pyclass :=
  PyClass "UnknownError" (Some ErrorReport) true true
    [with_default "severity" TSeverity (VSeverity ERROR);
     Attribute "exception" TSTR None (Some exception_converter)].

Definition CalculateChunkExceptionReport : pyclass :=
  PyClass "CalculateChunkExceptionReport" (Some UnknownError) true true
    [required "start_offset" TInt;
     required "handler" TStr].

Definition CalculateMultiFileExceptionReport : pyclass :=
  PyClass "CalculateMultiFileExceptionReport" (Some UnknownError) true true
    [required "path" TPath;
     required "handler" TStr].

Definition ExtractCommandFailedReport : pyclass :=
  PyClass "ExtractCommandFailedReport" (Some ErrorReport) true true
    [with_default "severity" TSeverity (VSeverity WARNING);
     required "command" TStr;
     required "stdout" TBytes;
     required "stderr" TBytes;
     required "exit_code" TInt].

Definition ExtractDirectoryExistsReport : pyclass :=
  PyClass "ExtractDirectoryExistsReport" (Some ErrorReport) true true
    [with_default "severity" TSeverity (VSeverity ERROR);
     required "path" TPath].

Definition ExtractorDependencyNotFoundReport : pyclass :=
  PyClass "ExtractorDependencyNotFoundReport" (Some ErrorReport) true true
    [with_default "severity" TSeverity (VSeverity ERROR);
     required "dependencies" (TList TStr)].

Definition ExtractorTimedOut : pyclass :=
  PyClass "ExtractorTimedOut" (Some ErrorReport) true true
    [with_default "severity" TSeverity (VSeverity ERROR);
     required "cmd" TStr;
     required "timeout" TFloat].

Definition MaliciousSymlinkRemoved : pyclass :=
  PyClass "MaliciousSymlinkRemoved" (Some ErrorReport) true true
    [with_default "severity" TSeverity (VSeverity WARNING);
     required "link" TStr;
     required "target" TStr].

Definition MultiFileCollisionReport : pyclass :=
  PyClass "MultiFileCollisionReport" (Some ErrorReport) true true
    [with_default "severity" TSeverity (VSeverity ERROR);
     required "paths" (TSet TPath);
     required "handler" TStr].

Definition StatReport : pyclass :=
  PyClass "StatReport" (Some Report) true true
    [required "path" TPath;
     required "size" TInt;
     required "is_dir" TBool;
     required "is_file" TBool;
     required "is_link" TBool;
     required "link_target" (TOptional TPath)].

Definition HashReport : pyclass :=
  PyClass "HashReport" (Some Report) true true
    [required "md5" TStr;
     required "sha1" TStr;
     required "sha256" TStr].

Definition FileMagicReport : pyclass :=
  PyClass "FileMagicReport" (Some Report) true true
    [required "magic" TStr;
     required "mime_type" TStr].

Definition EntropyReport : pyclass :=
  PyClass "EntropyReport" (Some Report) true true
    [required "percentages" (TList TFloat);
     required "block_size" TInt;
     required "mean" TFloat].

Definition ChunkReport : pyclass :=
  PyClass "ChunkReport" (Some Report) true true
    [required "id" TStr;
     required "handler_name" TStr;
     required "start_offset" TInt;
     required "end_offset" TInt;
     required "size" TInt;
     required "is_encrypted" TBool;
     required "extraction_reports" (TList (TInstance "Report"))].

Definition UnknownChunkReport : pyclass :=
  PyClass "UnknownChunkReport" (Some Report) true true
    [required "id" TStr;
     required "start_offset" TInt;
     required "end_offset" TInt;
     required "size" TInt;
     required "entropy" (TOptional (TInstance "EntropyReport"))].

Definition MultiFileReport : pyclass :=
  PyClass "MultiFileReport" (Some Report) true true
    [required "id" TStr;
     required "handler_name" TStr;
     required "name" TStr;
     required "paths" (TList TPath);
     required "extraction_reports" (TList (TInstance "Report"))].

Definition ExtractionProblem : pyclass :=
  PyClass "ExtractionProblem" (Some Report) true true
    [required "problem" TStr;
     required "resolution" TStr;
     with_default "path" (TOptional TStr) VNone].

(** Every class the module defines, in the order of the file. *)
Definition report_classes : list pyclass :=
  [Report; ErrorReport; UnknownError; CalculateChunkExceptionReport;
   CalculateMultiFileExceptionReport; ExtractCommandFailedReport;
   ExtractDirectoryExistsReport; ExtractorDependencyNotFoundReport;
   ExtractorTimedOut; MaliciousSymlinkRemoved; MultiFileCollisionReport;
   StatReport; HashReport; FileMagicReport; EntropyReport; ChunkReport;
   UnknownChunkReport; MultiFileReport; ExtractionProblem].

(** The class of that name. *)
Definition lookup_class (name : string) : option pyclass :=
  find (fun c => bool_decide (c_name c = name)) report_classes.

(** [issubclass(c, named)] along the single base of each class. *)
Fixpoint issubclass (c : pyclass) (name : string) : bool :=
  match c with
  | PyClass n base _ _ _ =>
      bool_decide (n = name)
      || match base with
         | Some b => issubclass b name
         | None => false
         end
  end.

(** [Report.asdict] *)
Definition Report_asdict (self : pyval) : result pyval :=
  attrs.asdict self.

(** ** File system snapshot *)

(** [StatReport.from_path] *)
Definition StatReport_from_path (cls : pyclass) (fs : gmap string inode) (path : string)
  : result pyval :=
  st ← lstat fs path;
  let mode := st_mode st in
  link_target ← match readlink fs path with
                 | Ok target => Ok (VPath target)
                 | Raise (OSError _ _) => Ok VNone
                 | Raise e => Raise e
                 end;
  attrs.init cls (list_to_map
    [("path", VPath path);
     ("size", VInt (st_size st));
     ("is_dir", VBool (stat.S_ISDIR mode));
     ("is_file", VBool (stat.S_ISREG mode));
     ("is_link", VBool (stat.S_ISLNK mode));
     ("link_target", link_target)]).

(** ** Digests *)

(** A hash object of [hashlib]: the state [hashlib.X()] starts from,
    [update] and [digest].  The laws are what [hashlib] documents:
    repeated calls of [update] are equivalent to a single call with the
    concatenation of the arguments (and feeding no byte changes
    nothing). *)
Record HashAlgo := {
  h_state : Type;
  h_new : h_state;
  h_update : h_state -> list Byte.byte -> h_state;
  h_digest : h_state -> list Byte.byte;
  h_update_nil : forall s, h_update s [] = s;
  h_update_app : forall s a b, h_update (h_update s a) b = h_update s (a ++ b)
}.

Definition hex_digit (n : N) : ascii :=
  match n with
  | 0 => "0" | 1 => "1" | 2 => "2" | 3 => "3" | 4 => "4" | 5 => "5" | 6 => "6"
  | 7 => "7" | 8 => "8" | 9 => "9" | 10 => "a" | 11 => "b" | 12 => "c"
  | 13 => "d" | 14 => "e" | _ => "f"
  end%N%char.

Definition hex_of_byte (b : Byte.byte) : string :=
  let n := Byte.to_N b in
  String (hex_digit (n / 16)) (String (hex_digit (n mod 16)) "").

(** Lowercase hexadecimal, two digits a byte. *)
Definition hex (bs : list Byte.byte) : string :=
  fold_right (fun b acc => hex_of_byte b +:+ acc) "" bs.

(** [h.hexdigest()] *)
Definition hexdigest (H : HashAlgo) (s : h_state H) : string :=
  hex (h_digest H s).

(** The digest of a byte string by one algorithm alone:
    [hashlib.X(data).hexdigest()]. *)
Definition reference_hexdigest (H : HashAlgo) (data : list Byte.byte) : string :=
  hexdigest H (h_update H (h_new H) data).

(** [f.read(size)] on a file opened in binary mode, the file being the
    bytes not read yet: at most [size] bytes, all of them when [size] is
    negative. *)
Definition file_read (f : list Byte.byte) (size : Z) : list Byte.byte * list Byte.byte :=
  if size <? 0 then (f, [])
  else (take (Z.to_nat size) f, drop (Z.to_nat size) f).

(** [while chunk := f.read(chunk_size): update(chunk)] *)
Equations? read_loop {A : Type} (update : A -> list Byte.byte -> A) (chunk_size : Z)
    (f : list Byte.byte) (acc : A) : A by wf (length f) lt :=
  read_loop update chunk_size f acc with Logic.inspect (file_read f chunk_size) := {
    | exist _ ([], _) _ := acc
    | exist _ (b :: chunk, f') e :=
        read_loop update chunk_size f' (update acc (b :: chunk)) }.
Proof.
  revert e. unfold file_read. destruct (chunk_size <? 0).
  - intros [= -> <-]. simpl. lia.
  - intros [= Htake <-]. rewrite length_drop.
    destruct (Z.to_nat chunk_size); [discriminate |].
    destruct f; [discriminate |]. simpl. lia.
Qed.

Section Hashing.

(** [hashlib.md5], [hashlib.sha1], [hashlib.sha256] *)
Variables md5 sha1 sha256 : HashAlgo.

(** The three hash objects of [HashReport.from_path]. *)
Definition hashers : Type := h_state md5 * h_state sha1 * h_state sha256.

(** The body of the loop: each chunk goes to the three of them. *)
Definition update_all (hs : hashers) (chunk : list Byte.byte) : hashers :=
  let '(m, s1, s256) := hs in
  (h_update md5 m chunk, h_update sha1 s1 chunk, h_update sha256 s256 chunk).

(** [HashReport.from_path], for any [chunk_size]. *)
Definition HashReport_from_path_with (chunk_size : Z) (cls : pyclass)
    (fs : gmap string inode) (path : string) : result pyval :=
  f ← open_rb fs path;
  let '(m, s1, s256) :=
    read_loop update_all chunk_size f (h_new md5, h_new sha1, h_new sha256) in
  attrs.init cls (list_to_map
    [("md5", VStr (hexdigest md5 m));
     ("sha1", VStr (hexdigest sha1 s1));
     ("sha256", VStr (hexdigest sha256 s256))]).

(** [HashReport.from_path]: [chunk_size = 1024 * 64]. *)
Definition HashReport_from_path : pyclass -> gmap string inode -> string -> result pyval :=
  let chunk_size := 1024 * 64 in
  HashReport_from_path_with chunk_size.

End Hashing.

(** ** Entropy *)

(** What [for item in iterable] goes through. *)
Definition py_iter (iterable : pyval) : result (list pyval) :=
  match iterable with
  | VList l | VTuple l | VSet l => Ok l
  | _ => Raise (TypeError "object is not iterable")
  end.

(** What a numeric value denotes: a rational, an infinity or no number
    at all. *)
Inductive number :=
| Num (q : Q)
| PInf
| NInf
| NotANumber.

Definition py_number (v : pyval) : option number :=
  match v with
  | VBool b => Some (Num (if b then 1%Q else 0%Q))
  | VInt z => Some (Num (inject_Z z))
  | VFloat q => Some (Num q)
  | VInf negative => Some (if negative then NInf else PInf)
  | VNaN => Some NotANumber
  | _ => None
  end.

Definition Qgtb (a b : Q) : bool :=
  match Qcompare a b with Gt => true | _ => false end.

Definition Qltb (a b : Q) : bool :=
  match Qcompare a b with Lt => true | _ => false end.

(** The comparisons of IEEE 754: every comparison with a NaN is false. *)
Definition number_gt (a b : number) : bool :=
  match a, b with
  | NotANumber, _ | _, NotANumber => false
  | Num x, Num y => Qgtb x y
  | PInf, PInf | NInf, _ | Num _, PInf => false
  | PInf, _ | Num _, NInf => true
  end.

Definition number_lt (a b : number) : bool :=
  match a, b with
  | NotANumber, _ | _, NotANumber => false
  | Num x, Num y => Qltb x y
  | NInf, NInf | PInf, _ | Num _, NInf => false
  | NInf, _ | Num _, PInf => true
  end.

(** [a > b] and [a < b], between numbers. *)
Definition py_gt (a b : pyval) : result bool :=
  match py_number a, py_number b with
  | Some x, Some y => Ok (number_gt x y)
  | _, _ => Raise (TypeError "'>' not supported between instances")
  end.

Definition py_lt (a b : pyval) : result bool :=
  match py_number a, py_number b with
  | Some x, Some y => Ok (number_lt x y)
  | _, _ => Raise (TypeError "'<' not supported between instances")
  end.

(** The loop of the builtins [max] and [min]: the item kept so far is
    replaced by each item that compares beyond it. *)
Fixpoint extremum (beyond : pyval -> pyval -> result bool) (kept : pyval)
    (items : list pyval) : result pyval :=
  match items with
  | [] => Ok kept
  | item :: rest =>
      b ← beyond item kept;
      extremum beyond (if b : bool then item else kept) rest
  end.

(** [max(iterable)] *)
Definition py_max (iterable : pyval) : result pyval :=
  items ← py_iter iterable;
  match items with
  | [] => Raise (ValueError [VStr "max() arg is an empty sequence"])
  | first :: rest => extremum py_gt first rest
  end.

(** [min(iterable)] *)
Definition py_min (iterable : pyval) : result pyval :=
  items ← py_iter iterable;
  match items with
  | [] => Raise (ValueError [VStr "min() arg is an empty sequence"])
  | first :: rest => extremum py_lt first rest
  end.

(** [EntropyReport.highest] *)
Definition EntropyReport_highest (self : pyval) : result pyval :=
  percentages ← attrs.getattr self "percentages";
  py_max percentages.

(** [EntropyReport.lowest] *)
Definition EntropyReport_lowest (self : pyval) : result pyval :=
  percentages ← attrs.getattr self "percentages";
  py_min percentages.

(** ** Objects by identity *)

(** [type(obj)], when it is a class of the module. *)
Definition class_of (obj : pyval) : option pyclass :=
  match obj with
  | VInst cn _ => lookup_class cn
  | _ => None
  end.

(** What can be done to a report through a reference: bind or unbind an
    attribute ([r.name = value], [del r.name]), read one, call [asdict],
    read [highest] or [lowest]; and, going round the class, bind an
    attribute with [object.__setattr__(r, name, value)] or change the
    list an attribute holds, in place, with [r.name.append(item)]. *)
Inductive operation :=
| SetAttr (name : string) (value : pyval)
| DelAttr (name : string)
| GetAttr (name : string)
| CallAsdict
| GetHighest
| GetLowest
| ObjectSetattr (name : string) (value : pyval)
| Append (name : string) (item : pyval).

(** The operations that go through the class of the report: all but the
    last two. *)
Definition through_class (op : operation) : bool :=
  match op with
  | ObjectSetattr _ _ | Append _ _ => false
  | _ => true
  end.

(** The object with the list in one of its slots replaced by the list as
    [append] left it. *)
Definition with_slot (obj : pyval) (name : string) (value : pyval) : pyval :=
  match obj with
  | VInst cn slots => VInst cn (attrs.update_slot slots name value)
  | _ => obj
  end.

(** The heap holds the objects alive, by identity: a report is reached
    through a reference, so that a change made through one reference
    would be seen through every other.  [perform] gives the value (or the
    exception) of the operation and the heap it leaves.  The list an
    attribute holds is kept in the slot, so that [append] on it shows as
    a change of the object that holds it. *)
Definition perform (op : operation) (heap : gmap nat pyval) (ref : nat)
  : result pyval * gmap nat pyval :=
  match heap !! ref with
  | None => (Raise (TypeError "no such object"), heap)
  | Some obj =>
      match op with
      | SetAttr name value =>
          match class_of obj with
          | Some cls =>
              match attrs.setattr cls obj name value with
              | Ok obj' => (Ok VNone, <[ref := obj']> heap)
              | Raise e => (Raise e, heap)
              end
          | None => (Raise (AttributeError name), heap)
          end
      | DelAttr name =>
          match class_of obj with
          | Some cls =>
              match attrs.delattr cls obj name with
              | Ok obj' => (Ok VNone, <[ref := obj']> heap)
              | Raise e => (Raise e, heap)
              end
          | None => (Raise (AttributeError name), heap)
          end
      | GetAttr name => (attrs.getattr obj name, heap)
      | CallAsdict => (Report_asdict obj, heap)
      | GetHighest => (EntropyReport_highest obj, heap)
      | GetLowest => (EntropyReport_lowest obj, heap)
      | ObjectSetattr name value =>
          match class_of obj with
          | Some cls =>
              match attrs.object_setattr cls obj name value with
              | Ok obj' => (Ok VNone, <[ref := obj']> heap)
              | Raise e => (Raise e, heap)
              end
          | None => (Raise (AttributeError name), heap)
          end
      | Append name item =>
          match attrs.getattr obj name with
          | Ok (VList l) => (Ok VNone, <[ref := with_slot obj name (VList (l ++ [item]))]> heap)
          | Ok _ => (Raise (AttributeError "append"), heap)
          | Raise e => (Raise e, heap)
          end
      end
  end.

(** ** Well-typed reports *)

(** The value agrees with the annotation.  A slot annotated [STR] holds
    the text its converter produced; an instance agrees with a class when
    its own class is one of the module's, derives from the named one and
    its slots are those of its fields, each agreeing with its annotation. *)
Fixpoint check_value (v : pyval) {struct v} : pytype -> bool :=
  fix check (t : pytype) {struct t} : bool :=
    match t, v with
    | TStr, VStr _ | TInt, VInt _ | TBool, VBool _ | TBytes, VBytes _
    | TFloat, VFloat _ | TFloat, VInf _ | TFloat, VNaN
    | TPath, VPath _ | TSeverity, VSeverity _
    | TSTR, VStr _ => true
    | TList t', VList l => forallb (fun x => check_value x t') l
    | TSet t', VSet l => forallb (fun x => check_value x t') l
    | TOptional _, VNone => true
    | TOptional t', _ => check t'
    | TInstance name, VInst cn slots =>
        match lookup_class cn with
        | Some cls =>
            issubclass cls name
            && (fix check_slots (sl : list (string * pyval)) (fs : list attribute)
                    {struct sl} : bool :=
                  match sl, fs with
                  | [], [] => true
                  | (k, x) :: sl', a :: fs' =>
                      bool_decide (k = a_name a) && check_value x (a_type a)
                      && check_slots sl' fs'
                  | _, _ => false
                  end) slots (attrs.fields cls)
        | None => false
        end
    | _, _ => false
    end.

Definition check_type (t : pytype) (v : pyval) : bool := check_value v t.

(** A report: an instance of a class of the module with well-typed
    slots. *)
Definition is_report (v : pyval) : bool := check_type (TInstance "Report") v.

(** Plain data: scalars, and lists, tuples and dictionaries of plain
    data; no instance, no set, no exception or other object. *)
Fixpoint plain (v : pyval) : bool :=
  match v with
  | VNone | VBool _ | VInt _ | VFloat _ | VInf _ | VNaN
  | VStr _ | VBytes _ | VPath _ | VSeverity _ => true
  | VList l | VTuple l => forallb plain l
  | VDict d => forallb (fun kv => plain kv.1 && plain kv.2) d
  | VExc _ | VOpaque _ | VSet _ | VInst _ _ => false
  end.

(** ** Vocabulary of the properties *)

(** A digit of lowercase hexadecimal, and a string of them. *)
Definition is_lower_hex_digit (c : ascii) : bool :=
  match c with
  | "0" | "1" | "2" | "3" | "4" | "5" | "6" | "7" | "8" | "9"
  | "a" | "b" | "c" | "d" | "e" | "f" => true
  | _ => false
  end%char.

Fixpoint lowercase_hex (s : string) : bool :=
  match s with
  | EmptyString => true
  | String c s' => is_lower_hex_digit c && lowercase_hex s'
  end.

(** A small algorithm with the interface of a hash object, to run the
    definitions on: the sum of the bytes modulo 256. *)
Definition sum8_update (s : N) (data : list Byte.byte) : N :=
  fold_left (fun acc b => ((acc + Byte.to_N b) mod 256)%N) data s.

Definition sum8_digest (s : N) : list Byte.byte :=
  match Byte.of_N (s mod 256)%N with
  | Some b => [b]
  | None => []
  end.

Definition sum8 : HashAlgo :=
  {| h_state := N;
     h_new := 0%N;
     h_update := sum8_update;
     h_digest := sum8_digest;
     h_update_nil := fun s => eq_refl;
     h_update_app := fun s a b => eq_sym (fold_left_app _ a b s) |}.

(** Values that hold no other value. *)
Definition is_scalar (v : pyval) : bool :=
  match v with
  | VList _ | VTuple _ | VSet _ | VDict _ | VInst _ _ => false
  | _ => true
  end.

(** The value agrees with some annotation. *)
Definition typed (v : pyval) : Prop := exists t, check_value v t = true.

(** The list and instance cases of [_asdict_anything], written with
    [mapM]. *)
Definition convert_items (is_key : bool) (l : list pyval) : result pyval :=
  items ← mapM (attrs.asdict_anything false) l;
  Ok (if is_key then VTuple items else VList items).

Definition convert_slot (kv : string * pyval) : result (pyval * pyval) :=
  v' ← attrs.asdict_anything false kv.2; Ok (VStr kv.1, v').

(** The expansion the specification describes for the mapping of a
    report: a report becomes the dictionary of its attributes, by name and
    in order, each value expanded in turn; a list or a set becomes the
    list of its expanded items; any other value stays as it is. *)
Fixpoint expand (v : pyval) : pyval :=
  match v with
  | VInst _ slots => VDict (map (fun kv => (VStr kv.1, expand kv.2)) slots)
  | VList l | VSet l => VList (map expand l)
  | _ => v
  end.

(** The order of the numbers: an infinity at each end, and a NaN neither
    below nor above anything. *)
Definition number_le (a b : number) : Prop :=
  match a, b with
  | NotANumber, _ | _, NotANumber => False
  | NInf, _ | _, PInf => True
  | Num x, Num y => (x <= y)%Q
  | _, _ => False
  end.

(** [v] is at most [w], as numbers. *)
Definition py_le (v w : pyval) : Prop :=
  exists a b, py_number v = Some a /\ py_number w = Some b /\ number_le a b.

(** A number ([bool], [int] or [float]) that is not a NaN. *)
Definition is_real (v : pyval) : bool :=
  match py_number v with
  | Some NotANumber | None => false
  | Some _ => true
  end.

(** The default severity of each error variant, as the specification
    tabulates them (its ChunkComputationError and
    MultiFileComputationError are [CalculateChunkExceptionReport] and
    [CalculateMultiFileExceptionReport]). *)
Definition default_severities : list (pyclass * Severity) :=
  [(UnknownError, ERROR);
   (CalculateChunkExceptionReport, ERROR);
   (CalculateMultiFileExceptionReport, ERROR);
   (ExtractCommandFailedReport, WARNING);
   (ExtractDirectoryExistsReport, ERROR);
   (ExtractorDependencyNotFoundReport, ERROR);
   (ExtractorTimedOut, ERROR);
   (MaliciousSymlinkRemoved, WARNING);
   (MultiFileCollisionReport, ERROR)].

(** Some value of each annotation, and the keyword arguments that give
    one to every attribute without a default: a call that names no
    [severity]. *)
Definition sample_value (t : pytype) : pyval :=
  match t with
  | TStr | TSTR => VStr "x"
  | TInt => VInt 0
  | TBool => VBool false
  | TBytes => VBytes []
  | TFloat => VFloat 0
  | TPath => VPath "/"
  | TSeverity => VSeverity ERROR
  | TList _ => VList []
  | TSet _ => VSet []
  | TOptional _ => VNone
  | TInstance cls => VInst cls []
  end.

Definition required_arguments (cls : pyclass) : gmap string pyval :=
  list_to_map
    ((fun a => (a_name a, sample_value (a_type a)))
       <$> filter (fun a => a_default a = None) (attrs.fields cls)).

(** What the specification asks of the values of an [EntropyReport]:
    percentages that are a non-empty list of numbers within [0, 100] and
    a positive block size. *)
Definition entropy_values_valid (percentages block_size : pyval) : Prop :=
  exists (qs : list Q) (z : Z),
    percentages = VList (VFloat <$> qs) /\ block_size = VInt z
    /\ qs <> [] /\ 0 < z /\ Forall (fun q => (0 <= q)%Q /\ (q <= 100)%Q) qs.

Definition EntropyReport_invariant (r : pyval) : Prop :=
  exists p b,
    attrs.getattr r "percentages" = Ok p /\ attrs.getattr r "block_size" = Ok b
    /\ entropy_values_valid p b.

(** What the specification asks of the offsets of a [ChunkReport]. *)
Definition chunk_values_valid (start_offset end_offset size : pyval) : Prop :=
  exists s e n : Z,
    start_offset = VInt s /\ end_offset = VInt e /\ size = VInt n
    /\ s <= e /\ n = e - s.

Definition ChunkReport_invariant (r : pyval) : Prop :=
  exists s e n,
    attrs.getattr r "start_offset" = Ok s /\ attrs.getattr r "end_offset" = Ok e
    /\ attrs.getattr r "size" = Ok n /\ chunk_values_valid s e n.

(** ** Induction on values *)

(** Induction on a value, with the hypothesis for every value held in a
    list, a dictionary or an instance. *)
Section pyval_induction.

Variable P : pyval -> Prop.
Hypothesis Hscalar : forall v, is_scalar v = true -> P v.
Hypothesis Hlist : forall l, Forall P l -> P (VList l).
Hypothesis Htuple : forall l, Forall P l -> P (VTuple l).
Hypothesis Hset : forall l, Forall P l -> P (VSet l).
Hypothesis Hdict : forall d, Forall (fun kv => P kv.1 /\ P kv.2) d -> P (VDict d).
Hypothesis Hinst : forall cn slots, Forall (fun kv => P kv.2) slots -> P (VInst cn slots).

Fixpoint pyval_nested_ind (v : pyval) : P v :=
  let fix items (l : list pyval) : Forall P l :=
    match l with
    | [] => @List.Forall_nil _ _
    | x :: l' => @List.Forall_cons _ _ x l' (pyval_nested_ind x) (items l')
    end in
  match v with
  | VList l => Hlist l (items l)
  | VTuple l => Htuple l (items l)
  | VSet l => Hset l (items l)
  | VDict d =>
      Hdict d ((fix entries (d : list (pyval * pyval)) :
                  Forall (fun kv => P kv.1 /\ P kv.2) d :=
                  match d with
                  | [] => @List.Forall_nil _ _
                  | (k, x) :: d' =>
                      @List.Forall_cons _ _ (k, x) d'
                        (conj (pyval_nested_ind k) (pyval_nested_ind x)) (entries d')
                  end) d)
  | VInst cn slots =>
      Hinst cn slots ((fix entries (s : list (string * pyval)) :
                         Forall (fun kv => P kv.2) s :=
                         match s with
                         | [] => @List.Forall_nil _ _
                         | (k, x) :: s' =>
                             @List.Forall_cons _ _ (k, x) s' (pyval_nested_ind x) (entries s')
                         end) slots)
  | v' => Hscalar v' eq_refl
  end.

End pyval_induction.

(** ** Examples *)

(** A file of five bytes, a link to it and a directory. *)
Definition example_fs : gmap string inode :=
  list_to_map
    [("/fw/a.bin", Inode (StatResult 0x81A4 5) None
                     (Some (String.list_byte_of_string "hello")));
     ("/fw/link", Inode (StatResult 0xA1FF 9) (Some "/fw/a.bin") None);
     ("/fw", Inode (StatResult 0x41ED 4096) None None)].

(** A chunk report with one nested report. *)
Definition example_chunk : pyval :=
  VInst "ChunkReport"
    [("id", VStr "c0"); ("handler_name", VStr "zip");
     ("start_offset", VInt 0); ("end_offset", VInt 512); ("size", VInt 512);
     ("is_encrypted", VBool false);
     ("extraction_reports",
      VList [VInst "MaliciousSymlinkRemoved"
               [("severity", VSeverity WARNING); ("link", VStr "out/link");
                ("target", VStr "/etc/passwd")]])].

(** ** Vocabulary of the further properties *)

(** The names of [attr.fields(cls)]. *)
Definition field_names (cls : pyclass) : list string := a_name <$> attrs.fields cls.

(** The slot [__init__] fills for an attribute: the argument bound to it,
    passed through its converter. *)
Definition slot_of (kwargs : gmap string pyval) (a : attribute) (kv : string * pyval) : Prop :=
  exists v, attrs.bind_argument kwargs a = Ok (a, v) /\ attrs.set_slot (a, v) = Ok kv.

(** [UnknownError] and the classes that derive from it. *)
Definition unknown_error_classes : list pyclass :=
  [UnknownError; CalculateChunkExceptionReport; CalculateMultiFileExceptionReport].

(** The argument agrees with the annotation of the attribute; for [STR]
    it is the text or the exception object the converter takes. *)
Definition accepts (t : pytype) (v : pyval) : bool :=
  check_type t v
  || match t, v with
     | TSTR, VExc _ => true
     | _, _ => false
     end.

(** An attribute without converter, not annotated [STR], whose default
    (when it has one) agrees with its annotation. *)
Definition plain_attribute (a : attribute) : Prop :=
  a_converter a = None
  /\ a_type a <> TSTR
  /\ forall d, a_default a = Some d -> check_type (a_type a) d = true.

Definition is_instance (v : pyval) : bool :=
  match v with VInst _ _ => true | _ => false end.

(** The chunks the loop of [HashReport.from_path] passes to [update], in
    order. *)
Definition chunks_read (chunk_size : Z) (f : list Byte.byte) : list (list Byte.byte) :=
  read_loop (fun acc chunk => acc ++ [chunk]) chunk_size f [].

(** The file cut in consecutive slices of [chunk_size] bytes, the last
    one shorter when the length is no multiple of it: slice [i] is
    [f[i * chunk_size : (i + 1) * chunk_size]], and there are as many as
    the length divided by the chunk size, rounded up. *)
Definition slices (chunk_size : Z) (f : list Byte.byte) : list (list Byte.byte) :=
  let k := Z.to_nat chunk_size in
  (fun i => take k (drop (i * k) f))
    <$> seq 0 (Z.to_nat ((Z.of_nat (length f) + chunk_size - 1) / chunk_size)).

(** The digest of one hash object after these chunks. *)
Definition streamed_hexdigest (H : HashAlgo) (chunk_size : Z) (data : list Byte.byte) : string :=
  hexdigest H (fold_left (h_update H) (chunks_read chunk_size data) (h_new H)).

(** An exception raised in [f] at line 3 of [a.py], while handling
    another. *)
Definition example_exception : pyexc :=
  Exc (ExcClass "builtins" "" "KeyError") "'x'" [Frame "a.py" 3 "f" (Some "d[x]")]
    (Some (false, Exc (ExcClass "unblob.handlers" "" "InvalidInputFormat") "" [] None)).

(** * Properties *)

(** ** Strings *)

Lemma string_app_cons x (a b : string) : String x a +:+ b = String x (a +:+ b).
Proof. reflexivity. Qed.

Lemma string_app_assoc (a b c : string) : (a +:+ b) +:+ c = a +:+ (b +:+ c).
Proof.
  induction a as [| x a IH]; [reflexivity |].
  rewrite !string_app_cons. by f_equal.
Qed.

Lemma string_app_nil_r (a : string) : a +:+ "" = a.
Proof.
  induction a as [| x a IH]; [reflexivity |].
  rewrite string_app_cons. by f_equal.
Qed.

Lemma string_app_eq_nil (a b : string) : a +:+ b = "" -> b = "".
Proof. destruct a; [done | rewrite string_app_cons; discriminate]. Qed.

Lemma occurs_in_refl s : occurs_in s s.
Proof. exists "", "". simpl. by rewrite string_app_nil_r. Qed.

Lemma occurs_in_app_l s a b : occurs_in s a -> occurs_in s (a +:+ b).
Proof.
  intros (pre & post & ->). exists pre, (post +:+ b).
  by rewrite !string_app_assoc.
Qed.

Lemma occurs_in_app_r s a b : occurs_in s b -> occurs_in s (a +:+ b).
Proof.
  intros (pre & post & ->). exists (a +:+ pre), post.
  by rewrite !string_app_assoc.
Qed.

Lemma join_app l1 l2 : join (l1 ++ l2) = join l1 +:+ join l2.
Proof.
  induction l1 as [| x l1 IH]; simpl; [reflexivity |].
  by rewrite IH, string_app_assoc.
Qed.

(** ** Exception capture *)

Lemma stype_has_name c : occurs_in (cls_name c) (Traceback.stype c).
Proof.
  unfold Traceback.stype, qualname.
  destruct (_ || _); repeat apply occurs_in_app_r; apply occurs_in_refl.
Qed.

Lemma final_line_has_type etype s :
  occurs_in etype (Traceback.format_final_exc_line etype s)
  /\ Traceback.format_final_exc_line etype s <> "".
Proof.
  unfold Traceback.format_final_exc_line. destruct (bool_decide _); split.
  - apply occurs_in_app_l, occurs_in_refl.
  - intros H. by apply string_app_eq_nil in H.
  - apply occurs_in_app_l, occurs_in_refl.
  - intros H. by do 3 apply string_app_eq_nil in H.
Qed.

(** The text of an exception ends with its own final line. *)
Lemma format_exception_ends e :
  exists before,
    join (Traceback.format_exception e)
    = before +:+ Traceback.format_final_exc_line (Traceback.stype (exc_type e)) (exc_str e).
Proof.
  destruct e as [c s tb chained]. simpl. unfold Traceback.format_one.
  rewrite !join_app. simpl. rewrite string_app_nil_r, <- string_app_assoc. eauto.
Qed.

(** C1: [_convert_exception_to_str] returns a string unchanged, turns an
    exception object into non-empty text in which the name of its type
    occurs, and raises [ValueError] on anything that is neither a string
    nor an exception. *)
Theorem convert_exception_to_str_spec :
  (forall s, _convert_exception_to_str (VStr s) = Ok s)
  /\ (forall e, exists text,
        _convert_exception_to_str (VExc e) = Ok text
        /\ text <> ""
        /\ occurs_in (cls_name (exc_type e)) text)
  /\ (forall obj,
        isinstance_str obj = false ->
        isinstance_Exception obj = false ->
        _convert_exception_to_str obj
        = Raise (ValueError [VStr "Invalid exception object"; obj])).
Proof.
  split; [reflexivity |]. split.
  - intros e. eexists. split; [reflexivity |].
    destruct (format_exception_ends e) as [before ->].
    destruct (final_line_has_type (Traceback.stype (exc_type e)) (exc_str e))
      as [Hocc Hne].
    split.
    + intros H. by apply string_app_eq_nil in H.
    + apply occurs_in_app_r.
      destruct Hocc as (pre & post & Heq). rewrite Heq.
      apply occurs_in_app_r, occurs_in_app_l, stype_has_name.
  - intros obj Hs He. destruct obj; simpl in *; try discriminate; reflexivity.
Qed.

Lemma convert_exception_to_str_witness :
  _convert_exception_to_str (VInt 3)
  = Raise (ValueError [VStr "Invalid exception object"; VInt 3]).
Proof.
  apply (proj2 (proj2 convert_exception_to_str_spec)); reflexivity.
Defined.

(** ** Digests *)

Lemma file_read_app f size chunk f' :
  file_read f size = (chunk, f') -> f = chunk ++ f'.
Proof.
  unfold file_read. destruct (size <? 0); intros [= <- <-].
  - by rewrite app_nil_r.
  - by rewrite take_drop.
Qed.

Lemma file_read_eof f size f' :
  0 < size -> file_read f size = ([], f') -> f = [].
Proof.
  unfold file_read. intros Hpos. destruct (size <? 0) eqn:Hneg; [lia |].
  intros [= Htake _]. destruct (Z.to_nat size) eqn:Hn; [lia |].
  by destruct f.
Qed.

(** With a positive chunk size the loop feeds the whole file, in order:
    its result is that of one update with all the bytes. *)
Lemma read_loop_streams {A : Type} (update : A -> list Byte.byte -> A) chunk_size f acc :
  0 < chunk_size ->
  (forall s, update s [] = s) ->
  (forall s a b, update (update s a) b = update s (a ++ b)) ->
  read_loop update chunk_size f acc = update acc f.
Proof.
  intros Hpos Hnil Happ.
  funelim (read_loop update chunk_size f acc).
  - match goal with E : file_read _ _ = ([], _) |- _ =>
      pose proof (file_read_eof _ _ _ Hpos E) as Hf end.
    by rewrite Hf, Hnil.
  - match goal with IH : _ -> _ -> _ -> read_loop _ _ _ _ = _ |- _ =>
      rewrite IH by done end.
    rewrite Happ. f_equal. symmetry. by eapply file_read_app.
Qed.

Lemma hex_of_byte_lowercase b : lowercase_hex (hex_of_byte b) = true.
Proof. destruct b; reflexivity. Qed.

Lemma lowercase_hex_app a b :
  lowercase_hex a = true -> lowercase_hex b = true -> lowercase_hex (a +:+ b) = true.
Proof.
  intros Ha Hb. induction a as [| c a IH]; [done |].
  rewrite string_app_cons. simpl in *.
  apply andb_true_iff in Ha as [-> Ha]. simpl. auto.
Qed.

Lemma hex_lowercase bs : lowercase_hex (hex bs) = true.
Proof.
  induction bs as [| b bs IH]; [done |].
  change (hex (b :: bs)) with (hex_of_byte b +:+ hex bs).
  apply lowercase_hex_app; [apply hex_of_byte_lowercase | done].
Qed.

Section HashingProperties.

Variables md5 sha1 sha256 : HashAlgo.

Lemma update_all_nil hs : update_all md5 sha1 sha256 hs [] = hs.
Proof. destruct hs as [[m s1] s256]. simpl. by rewrite !h_update_nil. Qed.

Lemma update_all_app hs a b :
  update_all md5 sha1 sha256 (update_all md5 sha1 sha256 hs a) b
  = update_all md5 sha1 sha256 hs (a ++ b).
Proof. destruct hs as [[m s1] s256]. simpl. by rewrite !h_update_app. Qed.

Lemma from_path_with_reference chunk_size fs path data :
  0 < chunk_size ->
  open_rb fs path = Ok data ->
  HashReport_from_path_with md5 sha1 sha256 chunk_size HashReport fs path
  = Ok (VInst "HashReport"
          [("md5", VStr (reference_hexdigest md5 data));
           ("sha1", VStr (reference_hexdigest sha1 data));
           ("sha256", VStr (reference_hexdigest sha256 data))]).
Proof.
  intros Hpos Hopen. unfold HashReport_from_path_with. rewrite Hopen. simpl.
  rewrite read_loop_streams by auto using update_all_nil, update_all_app.
  simpl. unfold reference_hexdigest.
  generalize (hexdigest md5 (h_update md5 (h_new md5) data)).
  generalize (hexdigest sha1 (h_update sha1 (h_new sha1) data)).
  generalize (hexdigest sha256 (h_update sha256 (h_new sha256) data)).
  intros. vm_compute. reflexivity.
Qed.

(** C2: for a file that can be read, [HashReport.from_path] returns the
    report whose [md5], [sha1] and [sha256] are the lowercase
    hexadecimal digests each algorithm alone gives of the whole
    content; the result is a function of the bytes only, the same for
    every positive chunk size. *)
Theorem HashReport_from_path_reference fs path data :
  open_rb fs path = Ok data ->
  HashReport_from_path md5 sha1 sha256 HashReport fs path
  = Ok (VInst "HashReport"
          [("md5", VStr (reference_hexdigest md5 data));
           ("sha1", VStr (reference_hexdigest sha1 data));
           ("sha256", VStr (reference_hexdigest sha256 data))])
  /\ lowercase_hex (reference_hexdigest md5 data) = true
  /\ lowercase_hex (reference_hexdigest sha1 data) = true
  /\ lowercase_hex (reference_hexdigest sha256 data) = true
  /\ forall chunk_size, 0 < chunk_size ->
       HashReport_from_path_with md5 sha1 sha256 chunk_size HashReport fs path
       = HashReport_from_path md5 sha1 sha256 HashReport fs path.
Proof.
  intros Hopen.
  assert (Hfix : HashReport_from_path md5 sha1 sha256 HashReport fs path
                 = HashReport_from_path_with md5 sha1 sha256 (1024 * 64)
                     HashReport fs path) by reflexivity.
  repeat split.
  - rewrite Hfix. apply from_path_with_reference; [lia | done].
  - apply hex_lowercase.
  - apply hex_lowercase.
  - apply hex_lowercase.
  - intros chunk_size Hpos. rewrite Hfix.
    rewrite !(from_path_with_reference _ fs path data) by (done || lia).
    reflexivity.
Qed.

End HashingProperties.

Lemma HashReport_from_path_reference_witness :
  HashReport_from_path sum8 sum8 sum8 HashReport example_fs "/fw/a.bin"
  = Ok (VInst "HashReport" [("md5", VStr "14"); ("sha1", VStr "14"); ("sha256", VStr "14")]).
Proof.
  refine (proj1 (HashReport_from_path_reference sum8 sum8 sum8 example_fs "/fw/a.bin"
                   (String.list_byte_of_string "hello") _)).
  vm_compute. reflexivity.
Defined.

(** ** File system snapshot *)

Lemma readlink_raises fs path e :
  readlink fs path = Raise e -> exists errno filename, e = OSError errno filename.
Proof.
  unfold readlink.
  destruct (fs !! path) as [i |]; [| intros [= <-]; eauto].
  destruct (stat.S_ISLNK _); [| intros [= <-]; eauto].
  destruct (i_target i); [discriminate | intros [= <-]; eauto].
Qed.

Lemma readlink_not_a_link fs path st :
  lstat fs path = Ok st ->
  stat.S_ISLNK (st_mode st) = false ->
  readlink fs path = Raise (OSError EINVAL path).
Proof.
  unfold lstat, readlink. destruct (fs !! path) as [i |]; [| discriminate].
  intros [= <-] ->. reflexivity.
Qed.

Lemma readlink_is_a_link fs path target st :
  readlink fs path = Ok target ->
  lstat fs path = Ok st ->
  stat.S_ISLNK (st_mode st) = true.
Proof.
  unfold lstat, readlink. destruct (fs !! path) as [i |]; [| discriminate].
  intros Hlink [= <-]. by destruct (stat.S_ISLNK _).
Qed.

(** One mode has one file type. *)
Lemma S_ISREG_not_others mode :
  stat.S_ISREG mode = true -> stat.S_ISDIR mode = false /\ stat.S_ISLNK mode = false.
Proof.
  unfold stat.S_ISREG, stat.S_ISDIR, stat.S_ISLNK. intros ->%Z.eqb_eq. done.
Qed.

Lemma S_ISDIR_not_others mode :
  stat.S_ISDIR mode = true -> stat.S_ISREG mode = false /\ stat.S_ISLNK mode = false.
Proof.
  unfold stat.S_ISREG, stat.S_ISDIR, stat.S_ISLNK. intros ->%Z.eqb_eq. done.
Qed.

Lemma StatReport_init (path size is_dir is_file is_link link_target : pyval) :
  attrs.init StatReport (list_to_map
    [("path", path); ("size", size); ("is_dir", is_dir); ("is_file", is_file);
     ("is_link", is_link); ("link_target", link_target)])
  = Ok (VInst "StatReport"
          [("path", path); ("size", size); ("is_dir", is_dir); ("is_file", is_file);
           ("is_link", is_link); ("link_target", link_target)]).
Proof. vm_compute. reflexivity. Qed.

(** The report of a path [lstat] succeeds on. *)
Lemma StatReport_from_path_value fs path st :
  lstat fs path = Ok st ->
  StatReport_from_path StatReport fs path
  = Ok (VInst "StatReport"
          [("path", VPath path);
           ("size", VInt (st_size st));
           ("is_dir", VBool (stat.S_ISDIR (st_mode st)));
           ("is_file", VBool (stat.S_ISREG (st_mode st)));
           ("is_link", VBool (stat.S_ISLNK (st_mode st)));
           ("link_target", match readlink fs path with
                           | Ok target => VPath target
                           | Raise _ => VNone
                           end)]).
Proof.
  intros Hst. unfold StatReport_from_path. rewrite Hst. simpl.
  destruct (readlink fs path) as [target | e] eqn:Hlink; simpl.
  - apply StatReport_init.
  - destruct (readlink_raises _ _ _ Hlink) as (errno & filename & ->). simpl.
    apply StatReport_init.
Qed.

(** C5: on a path that exists ([lstat], which does not follow a link,
    succeeds on it) [StatReport.from_path] returns a report and raises
    nothing; a failure of the one [readlink] gives [link_target = None];
    a regular file of size [N] is reported with [is_file] true, [is_dir]
    false, [size = N] and no [link_target]. *)
Theorem StatReport_from_path_succeeds fs path st :
  lstat fs path = Ok st ->
  exists link_target,
    StatReport_from_path StatReport fs path
    = Ok (VInst "StatReport"
            [("path", VPath path);
             ("size", VInt (st_size st));
             ("is_dir", VBool (stat.S_ISDIR (st_mode st)));
             ("is_file", VBool (stat.S_ISREG (st_mode st)));
             ("is_link", VBool (stat.S_ISLNK (st_mode st)));
             ("link_target", link_target)])
    /\ (forall e, readlink fs path = Raise e -> link_target = VNone)
    /\ (forall N, stat.S_ISREG (st_mode st) = true -> st_size st = N ->
          StatReport_from_path StatReport fs path
          = Ok (VInst "StatReport"
                  [("path", VPath path);
                   ("size", VInt N);
                   ("is_dir", VBool false);
                   ("is_file", VBool true);
                   ("is_link", VBool false);
                   ("link_target", VNone)])).
Proof.
  intros Hst. eexists. split; [by apply StatReport_from_path_value |]. split.
  - intros e ->. reflexivity.
  - intros N Hreg <-. rewrite (StatReport_from_path_value _ _ _ Hst).
    destruct (S_ISREG_not_others _ Hreg) as [Hdir Hlnk].
    rewrite (readlink_not_a_link _ _ _ Hst Hlnk), Hreg, Hdir, Hlnk. reflexivity.
Qed.

Lemma StatReport_from_path_succeeds_witness :
  StatReport_from_path StatReport example_fs "/fw/a.bin"
  = Ok (VInst "StatReport"
          [("path", VPath "/fw/a.bin");
           ("size", VInt 5);
           ("is_dir", VBool false);
           ("is_file", VBool true);
           ("is_link", VBool false);
           ("link_target", VNone)]).
Proof.
  destruct (StatReport_from_path_succeeds example_fs "/fw/a.bin" (StatResult 0x81A4 5))
    as (link_target & _ & _ & Hregular); [vm_compute; reflexivity |].
  apply (Hregular 5); reflexivity.
Defined.

(** C10: in the report [StatReport.from_path] returns for an existing
    path, no two of [is_dir], [is_file] and [is_link] are true, all three
    being read from the one mode [lstat] gave; a symbolic link is
    reported with [is_link] true and [is_file] false, also when its
    target is a regular file. *)
Theorem StatReport_kinds_exclusive fs path st :
  lstat fs path = Ok st ->
  exists r is_dir is_file is_link,
    StatReport_from_path StatReport fs path = Ok r
    /\ attrs.getattr r "is_dir" = Ok (VBool is_dir)
    /\ attrs.getattr r "is_file" = Ok (VBool is_file)
    /\ attrs.getattr r "is_link" = Ok (VBool is_link)
    /\ is_dir && is_file = false
    /\ is_dir && is_link = false
    /\ is_file && is_link = false
    /\ (stat.S_ISLNK (st_mode st) = true -> is_link = true /\ is_file = false)
    /\ (forall target st',
          readlink fs path = Ok target ->
          lstat fs target = Ok st' ->
          stat.S_ISREG (st_mode st') = true ->
          is_link = true /\ is_file = false).
Proof.
  intros Hst. do 4 eexists.
  split; [by apply StatReport_from_path_value |].
  do 3 (split; [reflexivity |]).
  assert (Hkinds : stat.S_ISDIR (st_mode st) && stat.S_ISREG (st_mode st) = false
                   /\ stat.S_ISDIR (st_mode st) && stat.S_ISLNK (st_mode st) = false
                   /\ stat.S_ISREG (st_mode st) && stat.S_ISLNK (st_mode st) = false
                   /\ (stat.S_ISLNK (st_mode st) = true ->
                       stat.S_ISLNK (st_mode st) = true
                       /\ stat.S_ISREG (st_mode st) = false)).
  { destruct (stat.S_ISDIR (st_mode st)) eqn:Hdir;
      [destruct (S_ISDIR_not_others _ Hdir) as [-> ->]; done |].
    destruct (stat.S_ISREG (st_mode st)) eqn:Hreg;
      [destruct (S_ISREG_not_others _ Hreg) as [_ ->]; done |].
    done. }
  destruct Hkinds as (H1 & H2 & H3 & H4).
  do 4 (split; [done |]).
  intros target st' Htarget _ _. apply H4.
  by apply (readlink_is_a_link fs path target).
Qed.

Lemma StatReport_kinds_exclusive_witness :
  exists r,
    StatReport_from_path StatReport example_fs "/fw/link" = Ok r
    /\ attrs.getattr r "is_link" = Ok (VBool true)
    /\ attrs.getattr r "is_file" = Ok (VBool false).
Proof.
  destruct (StatReport_kinds_exclusive example_fs "/fw/link" (StatResult 0xA1FF 9))
    as (r & d & f & l & Hr & _ & Hf & Hl & _ & _ & _ & _ & Htarget);
    [vm_compute; reflexivity |].
  destruct (Htarget "/fw/a.bin" (StatResult 0x81A4 5)) as [-> ->];
    [vm_compute; reflexivity.. |].
  exists r. auto.
Defined.

(** ** Serialization *)

Lemma typed_list_inv l : typed (VList l) -> Forall typed l.
Proof.
  intros [t Ht]. induction t; simpl in Ht; try discriminate; auto.
  apply Forall_forall. intros x Hx.
  rewrite forallb_forall in Ht. exists t. apply Ht. by apply list_elem_of_In.
Qed.

Lemma typed_set_inv l : typed (VSet l) -> Forall typed l.
Proof.
  intros [t Ht]. induction t; simpl in Ht; try discriminate; auto.
  apply Forall_forall. intros x Hx.
  rewrite forallb_forall in Ht. exists t. apply Ht. by apply list_elem_of_In.
Qed.

Lemma typed_tuple_inv l : ~ typed (VTuple l).
Proof. intros [t Ht]. induction t; simpl in Ht; try discriminate; auto. Qed.

Lemma typed_dict_inv d : ~ typed (VDict d).
Proof. intros [t Ht]. induction t; simpl in Ht; try discriminate; auto. Qed.

Lemma typed_exc_inv e : ~ typed (VExc e).
Proof. intros [t Ht]. induction t; simpl in Ht; try discriminate; auto. Qed.

Lemma typed_opaque_inv n : ~ typed (VOpaque n).
Proof. intros [t Ht]. induction t; simpl in Ht; try discriminate; auto. Qed.

Lemma typed_inst_inv cn slots : typed (VInst cn slots) -> Forall (fun kv => typed kv.2) slots.
Proof.
  intros [t Ht]. induction t; simpl in Ht; try discriminate; auto.
  destruct (lookup_class cn) as [c |]; [| discriminate].
  apply andb_true_iff in Ht as [_ Ht].
  revert Ht. generalize (attrs.fields c).
  induction slots as [| [k x] slots IH]; intros fs Ht; [constructor |].
  destruct fs as [| a fs]; [discriminate |].
  apply andb_true_iff in Ht as [Ht Hrest].
  apply andb_true_iff in Ht as [_ Hx].
  constructor; [by exists (a_type a) | by eapply IH].
Qed.


Lemma mapM_result_ok {A B} (f : A -> result B) (Q : B -> Prop) (l : list A) :
  Forall (fun x => exists y, f x = Ok y /\ Q y) l ->
  exists ys, mapM f l = Ok ys /\ Forall Q ys /\ length ys = length l.
Proof.
  induction 1 as [| x l (y & Hy & HQ) _ (ys & Hys & HQs & Hlen)]; simpl.
  - by exists [].
  - exists (y :: ys). rewrite Hy, Hys. simpl. split; [done |]. split; [by constructor |].
    by rewrite Hlen.
Qed.

Lemma asdict_anything_list is_key l :
  attrs.asdict_anything is_key (VList l) = convert_items is_key l.
Proof.
  reflexivity.
Qed.

Lemma asdict_anything_set is_key l :
  attrs.asdict_anything is_key (VSet l) = convert_items is_key l.
Proof.
  reflexivity.
Qed.

Lemma asdict_anything_inst is_key cn slots :
  attrs.asdict_anything is_key (VInst cn slots)
  = rv ← mapM convert_slot slots; Ok (VDict rv).
Proof.
  simpl. f_equal.
  induction slots as [| [k x] slots IH]; simpl; [done |].
  rewrite IH. unfold convert_slot. simpl.
  destruct (attrs.asdict_anything false x); reflexivity.
Qed.



Lemma Forall_forallb {A} (f : A -> bool) (l : list A) :
  Forall (fun x => f x = true) l -> forallb f l = true.
Proof. induction 1 as [| x l Hx _ IH]; simpl; [done | by rewrite Hx, IH]. Qed.

Lemma convert_items_typed l :
  Forall (fun v => typed v ->
            exists d, attrs.asdict_anything false v = Ok d /\ plain d = true) l ->
  Forall typed l ->
  exists items, convert_items false l = Ok (VList items) /\ plain (VList items) = true.
Proof.
  intros IH Ht. unfold convert_items.
  destruct (mapM_result_ok (attrs.asdict_anything false) (fun d => plain d = true) l)
    as (items & -> & Hplain & _).
  { rewrite Forall_forall in IH, Ht. apply Forall_forall. auto. }
  exists items. split; [reflexivity |]. by apply Forall_forallb.
Qed.

Lemma asdict_anything_typed v :
  typed v -> exists d, attrs.asdict_anything false v = Ok d /\ plain d = true.
Proof.
  induction v as [v Hv | l IH | l IH | l IH | d IH | cn slots IH] using pyval_nested_ind;
    intros Ht.
  - destruct v; try discriminate; try (by eexists);
      [by apply typed_exc_inv in Ht | by apply typed_opaque_inv in Ht].
  - apply typed_list_inv in Ht. rewrite asdict_anything_list.
    destruct (convert_items_typed l IH Ht) as (items & -> & Hp). eauto.
  - by apply typed_tuple_inv in Ht.
  - apply typed_set_inv in Ht. rewrite asdict_anything_set.
    destruct (convert_items_typed l IH Ht) as (items & -> & Hp). eauto.
  - by apply typed_dict_inv in Ht.
  - apply typed_inst_inv in Ht. rewrite asdict_anything_inst.
    destruct (mapM_result_ok convert_slot (fun e => plain e.1 && plain e.2 = true) slots)
      as (rv & -> & Hplain & _).
    { rewrite Forall_forall in IH, Ht. apply Forall_forall. intros [k x] Hin.
      destruct (IH _ Hin (Ht _ Hin)) as (d & Hd & Hp). exists (VStr k, d).
      unfold convert_slot. simpl in *. by rewrite Hd. }
    eexists. split; [reflexivity |]. simpl. by apply Forall_forallb.
Qed.

Lemma convert_slot_key kv e : convert_slot kv = Ok e -> e.1 = VStr kv.1.
Proof.
  unfold convert_slot. destruct (attrs.asdict_anything false kv.2); simpl; [| discriminate].
  intros H. by injection H as <-.
Qed.

Lemma mapM_result_fst {A B C} (f : A -> result B) (g : A -> C) (h : B -> C) l ys :
  (forall x y, f x = Ok y -> h y = g x) ->
  mapM f l = Ok ys -> h <$> ys = g <$> l.
Proof.
  intros Hf. revert ys. induction l as [| x l IH]; intros ys.
  - intros H. by injection H as <-.
  - change (mapM f (x :: l)) with (y ← f x; k ← mapM f l; mret (y :: k)).
    destruct (f x) as [y |] eqn:Hy; [| discriminate].
    destruct (mapM f l) as [k |]; [| discriminate].
    intros H. injection H as <-. simpl. f_equal; auto.
Qed.

Lemma mapM_result_map {A B} (f : A -> result B) (g : A -> B) (l : list A) :
  Forall (fun x => f x = Ok (g x)) l -> mapM f l = Ok (map g l).
Proof.
  induction 1 as [| x l Hx _ IH]; [reflexivity |].
  change (mapM f (x :: l)) with (y ← f x; k ← mapM f l; mret (y :: k)).
  rewrite Hx, IH. reflexivity.
Qed.

Lemma asdict_anything_expand v :
  typed v -> attrs.asdict_anything false v = Ok (expand v).
Proof.
  induction v as [v Hv | l IH | l IH | l IH | d IH | cn slots IH] using pyval_nested_ind;
    intros Ht.
  - destruct v; try discriminate; reflexivity.
  - apply typed_list_inv in Ht. rewrite asdict_anything_list. unfold convert_items.
    rewrite (mapM_result_map _ expand); [reflexivity |].
    rewrite Forall_forall in IH, Ht. apply Forall_forall. auto.
  - by apply typed_tuple_inv in Ht.
  - apply typed_set_inv in Ht. rewrite asdict_anything_set. unfold convert_items.
    rewrite (mapM_result_map _ expand); [reflexivity |].
    rewrite Forall_forall in IH, Ht. apply Forall_forall. auto.
  - by apply typed_dict_inv in Ht.
  - apply typed_inst_inv in Ht. rewrite asdict_anything_inst.
    rewrite (mapM_result_map _ (fun kv => (VStr kv.1, expand kv.2))); [reflexivity |].
    rewrite Forall_forall in IH, Ht. apply Forall_forall. intros [k x] Hin.
    pose proof (IH _ Hin (Ht _ Hin)) as Hx.
    unfold convert_slot. cbn [fst snd] in Hx |- *. by rewrite Hx.
Qed.

(** C8: [asdict] of a report whose values agree with the annotations of
    its class, at every depth, raises nothing and returns the expansion
    of the report: the dictionary that gives, under each attribute name
    and in order, the expansion of the value, where a report in an
    attribute, or in a list or set in an attribute, is the dictionary of
    its own attributes, a list or set is the list of its expanded items
    and any other value is itself.  The result is plain data: no instance
    or other object is left. *)
Theorem asdict_expands_reports self :
  is_report self = true ->
  Report_asdict self = Ok (expand self)
  /\ plain (expand self) = true
  /\ exists cn slots,
       self = VInst cn slots
       /\ expand self = VDict ((fun kv => (VStr kv.1, expand kv.2)) <$> slots).
Proof.
  intros Hrep.
  assert (Hty : typed self) by (by exists (TInstance "Report")).
  destruct (asdict_anything_typed _ Hty) as (d & Hd & Hp).
  pose proof (asdict_anything_expand _ Hty) as He.
  rewrite He in Hd. injection Hd as <-.
  destruct self; try discriminate.
  split; [exact He |]. split; [exact Hp |]. eauto.
Qed.

(** ** Entropy *)




Lemma number_gt_le a b : number_gt a b = true -> number_le b a.
Proof.
  destruct a, b; simpl; try done. unfold Qgtb.
  destruct (Qcompare q q0) eqn:Hcmp; [done | done |].
  intros _. apply Qgt_alt in Hcmp. by apply Qlt_le_weak.
Qed.

Lemma number_not_gt_le a b :
  a <> NotANumber -> b <> NotANumber -> number_gt a b = false -> number_le a b.
Proof.
  destruct a, b; simpl; try done. unfold Qgtb.
  destruct (Qcompare q q0) eqn:Hcmp; [| | done]; intros _ _ _.
  - apply Qeq_alt in Hcmp. rewrite Hcmp. apply Qle_refl.
  - apply Qlt_alt in Hcmp. by apply Qlt_le_weak.
Qed.

Lemma number_lt_le a b : number_lt a b = true -> number_le a b.
Proof.
  destruct a, b; simpl; try done. unfold Qltb.
  destruct (Qcompare q q0) eqn:Hcmp; [done | | done].
  intros _. apply Qlt_alt in Hcmp. by apply Qlt_le_weak.
Qed.

Lemma number_not_lt_le a b :
  a <> NotANumber -> b <> NotANumber -> number_lt a b = false -> number_le b a.
Proof.
  destruct a, b; simpl; try done. unfold Qltb.
  destruct (Qcompare q q0) eqn:Hcmp; [| done |]; intros _ _ _.
  - apply Qeq_alt in Hcmp. rewrite Hcmp. apply Qle_refl.
  - apply Qgt_alt in Hcmp. by apply Qlt_le_weak.
Qed.

Lemma number_le_refl a : a <> NotANumber -> number_le a a.
Proof. destruct a; simpl; try done. intros _. apply Qle_refl. Qed.

Lemma number_le_trans a b c : number_le a b -> number_le b c -> number_le a c.
Proof. destruct a, b, c; simpl; try done. apply Qle_trans. Qed.

Lemma is_real_number v :
  is_real v = true -> exists a, py_number v = Some a /\ a <> NotANumber.
Proof.
  unfold is_real. destruct (py_number v) as [[] |]; try discriminate; eauto.
Qed.

Lemma py_le_refl v : is_real v = true -> py_le v v.
Proof.
  intros (a & Ha & Hn)%is_real_number. exists a, a. eauto using number_le_refl.
Qed.

Lemma py_le_trans u v w : py_le u v -> py_le v w -> py_le u w.
Proof.
  intros (a & b & Ha & Hb & Hab) (b' & c & Hb' & Hc & Hbc).
  rewrite Hb in Hb'. injection Hb' as <-. exists a, c. eauto using number_le_trans.
Qed.

Lemma py_gt_real x kept :
  is_real x = true -> is_real kept = true ->
  exists b, py_gt x kept = Ok b /\ if b then py_le kept x else py_le x kept.
Proof.
  intros (a & Ha & Hna)%is_real_number (k & Hk & Hnk)%is_real_number.
  unfold py_gt. rewrite Ha, Hk. exists (number_gt a k). split; [done |].
  destruct (number_gt a k) eqn:Hgt.
  - exists k, a. eauto using number_gt_le.
  - exists a, k. eauto using number_not_gt_le.
Qed.

Lemma py_lt_real x kept :
  is_real x = true -> is_real kept = true ->
  exists b, py_lt x kept = Ok b /\ if b then py_le x kept else py_le kept x.
Proof.
  intros (a & Ha & Hna)%is_real_number (k & Hk & Hnk)%is_real_number.
  unfold py_lt. rewrite Ha, Hk. exists (number_lt a k). split; [done |].
  destruct (number_lt a k) eqn:Hlt.
  - exists a, k. eauto using number_lt_le.
  - exists k, a. eauto using number_not_lt_le.
Qed.

Lemma extremum_cons beyond kept item rest :
  extremum beyond kept (item :: rest)
  = b ← beyond item kept; extremum beyond (if b : bool then item else kept) rest.
Proof. reflexivity. Qed.

Lemma extremum_gt_reals kept rest :
  is_real kept = true -> Forall (fun v => is_real v = true) rest ->
  exists m,
    extremum py_gt kept rest = Ok m
    /\ m ∈ kept :: rest
    /\ Forall (fun v => py_le v m) (kept :: rest).
Proof.
  intros Hk Hrest. revert kept Hk.
  induction Hrest as [| x rest Hx _ IH]; intros kept Hk.
  - exists kept. split; [reflexivity |]. split; [by left |].
    constructor; [by apply py_le_refl | constructor].
  - rewrite extremum_cons.
    destruct (py_gt_real x kept Hx Hk) as (b & -> & Hb). cbn [mbind result_bind].
    destruct b.
    + destruct (IH x Hx) as (m & -> & Hin & Hall). exists m.
      inversion Hall as [| ? ? Hxm Hrestm]; subst.
      split; [reflexivity |]. split; [by right |].
      constructor; [by eapply py_le_trans | by constructor].
    + destruct (IH kept Hk) as (m & -> & Hin & Hall). exists m.
      inversion Hall as [| ? ? Hkm Hrestm]; subst.
      split; [reflexivity |]. split.
      * apply elem_of_cons in Hin as [-> | Hin]; [by left | by do 2 right].
      * constructor; [done |]. constructor; [by eapply py_le_trans | done].
Qed.

Lemma extremum_lt_reals kept rest :
  is_real kept = true -> Forall (fun v => is_real v = true) rest ->
  exists m,
    extremum py_lt kept rest = Ok m
    /\ m ∈ kept :: rest
    /\ Forall (fun v => py_le m v) (kept :: rest).
Proof.
  intros Hk Hrest. revert kept Hk.
  induction Hrest as [| x rest Hx _ IH]; intros kept Hk.
  - exists kept. split; [reflexivity |]. split; [by left |].
    constructor; [by apply py_le_refl | constructor].
  - rewrite extremum_cons.
    destruct (py_lt_real x kept Hx Hk) as (b & -> & Hb). cbn [mbind result_bind].
    destruct b.
    + destruct (IH x Hx) as (m & -> & Hin & Hall). exists m.
      inversion Hall as [| ? ? Hxm Hrestm]; subst.
      split; [reflexivity |]. split; [by right |].
      constructor; [by eapply py_le_trans | by constructor].
    + destruct (IH kept Hk) as (m & -> & Hin & Hall). exists m.
      inversion Hall as [| ? ? Hkm Hrestm]; subst.
      split; [reflexivity |]. split.
      * apply elem_of_cons in Hin as [-> | Hin]; [by left | by do 2 right].
      * constructor; [done |]. constructor; [by eapply py_le_trans | done].
Qed.

(** C4: on an [EntropyReport] whose [percentages] is a non-empty list of
    numbers none of which is a NaN (finite or infinite floats, integers),
    [highest] and [lowest] raise nothing, [highest] is the maximum of the
    list and [lowest] its minimum: an entry that no entry exceeds, and
    one that exceeds no entry. *)
Theorem EntropyReport_highest_lowest self l :
  attrs.getattr self "percentages" = Ok (VList l) ->
  l <> [] ->
  Forall (fun v => is_real v = true) l ->
  exists hi lo,
    EntropyReport_highest self = Ok hi
    /\ EntropyReport_lowest self = Ok lo
    /\ hi ∈ l /\ Forall (fun v => py_le v hi) l
    /\ lo ∈ l /\ Forall (fun v => py_le lo v) l.
Proof.
  intros Hp Hne Hreal. unfold EntropyReport_highest, EntropyReport_lowest. rewrite Hp.
  destruct l as [| v l]; [done |].
  inversion Hreal as [| ? ? Hv Hl]; subst.
  destruct (extremum_gt_reals v l Hv Hl) as (hi & Hhi & ? & ?).
  destruct (extremum_lt_reals v l Hv Hl) as (lo & Hlo & ? & ?).
  exists hi, lo. unfold py_max, py_min.
  cbn [mbind result_bind py_iter]. rewrite Hhi, Hlo. done.
Qed.

Lemma EntropyReport_highest_lowest_witness :
  let l := [VFloat (1 # 2); VInf false; VInt 3; VInf true] in
  let self := VInst "EntropyReport"
                [("percentages", VList l); ("block_size", VInt 4);
                 ("mean", VFloat (7 # 3))] in
  exists hi lo,
    EntropyReport_highest self = Ok hi
    /\ EntropyReport_lowest self = Ok lo
    /\ hi ∈ l /\ Forall (fun v => py_le v hi) l
    /\ lo ∈ l /\ Forall (fun v => py_le lo v) l.
Proof.
  apply EntropyReport_highest_lowest; [reflexivity | discriminate |].
  repeat constructor.
Defined.

(** C4, as the specification states it, fails: with a NaN at the head of
    [percentages], no entry compares above or below it, so [highest] and
    [lowest] both return the NaN, which is neither the maximum nor the
    minimum of the list. *)
Lemma EntropyReport_highest_lowest_counterexample :
  exists self,
    attrs.init EntropyReport (list_to_map
      [("percentages", VList [VNaN; VFloat 1; VFloat 2]);
       ("block_size", VInt 1024); ("mean", VFloat (3 # 2))]) = Ok self
    /\ EntropyReport_highest self = Ok VNaN
    /\ EntropyReport_lowest self = Ok VNaN
    /\ ~ py_le (VFloat 2) VNaN
    /\ ~ py_le VNaN (VFloat 1).
Proof.
  eexists. split; [vm_compute; reflexivity |].
  split; [vm_compute; reflexivity |]. split; [vm_compute; reflexivity |].
  split; intros (a & b & Ha & Hb & Hle); simpl in Ha, Hb;
    injection Ha as <-; injection Hb as <-; exact Hle.
Qed.

(** ** Construction *)

Lemma mapM_cons {A B} (f : A -> result B) x l :
  mapM f (x :: l) = y ← f x; k ← mapM f l; Ok (y :: k).
Proof. reflexivity. Qed.

Lemma bind_argument_default kwargs a d :
  kwargs !! a_name a = None -> a_default a = Some d ->
  attrs.bind_argument kwargs a = Ok (a, d).
Proof. unfold attrs.bind_argument. by intros -> ->. Qed.

Lemma init_default_first cls name t d rest kwargs r :
  attrs.fields cls = with_default name t d :: rest ->
  kwargs !! name = None ->
  attrs.init cls kwargs = Ok r ->
  attrs.getattr r name = Ok d.
Proof.
  intros Hfields Hnone. unfold attrs.init. rewrite Hfields.
  destruct (bool_decide _); [| discriminate].
  rewrite mapM_cons, (bind_argument_default _ _ d) by done.
  destruct (mapM (attrs.bind_argument kwargs) rest) as [args |]; [| discriminate].
  cbn [mbind result_bind]. rewrite mapM_cons.
  change (attrs.set_slot (with_default name t d, d)) with (Ok (A := string * pyval) (name, d)).
  cbn [mbind result_bind].
  destruct (mapM attrs.set_slot args) as [slots |]; [| discriminate].
  intros H. injection H as <-. simpl. by rewrite bool_decide_eq_true_2.
Qed.

Lemma default_severity_first cls sev :
  (cls, sev) ∈ default_severities ->
  exists rest, attrs.fields cls = with_default "severity" TSeverity (VSeverity sev) :: rest.
Proof.
  unfold default_severities. intros H.
  repeat (apply elem_of_cons in H as [[= -> ->] | H]; [eexists; reflexivity |]).
  by apply elem_of_nil in H.
Qed.

Lemma required_arguments_no_severity cls sev :
  (cls, sev) ∈ default_severities -> required_arguments cls !! "severity" = None.
Proof.
  unfold default_severities. intros H.
  repeat (apply elem_of_cons in H as [[= -> ->] | H]; [vm_compute; reflexivity |]).
  by apply elem_of_nil in H.
Qed.

Lemma required_arguments_construct cls sev :
  (cls, sev) ∈ default_severities -> is_ok (attrs.init cls (required_arguments cls)) = true.
Proof.
  unfold default_severities. intros H.
  repeat (apply elem_of_cons in H as [[= -> ->] | H]; [vm_compute; reflexivity |]).
  by apply elem_of_nil in H.
Qed.

(** C6: an error variant constructed without an explicit [severity] has
    the default severity of the table: any call of its class that names
    no [severity] and returns, returns a report with that severity, and
    the call that gives the other attributes alone does return.  The
    failed command [unpack foo.bin] with exit code 2, no output and
    [bad header] on its error stream is recorded with exactly these
    values and severity [WARNING]. *)
Theorem error_variants_default_severity :
  (forall cls sev,
     (cls, sev) ∈ default_severities ->
     (forall kwargs r,
        kwargs !! "severity" = None ->
        attrs.init cls kwargs = Ok r ->
        attrs.getattr r "severity" = Ok (VSeverity sev))
     /\ required_arguments cls !! "severity" = None
     /\ exists r,
          attrs.init cls (required_arguments cls) = Ok r
          /\ attrs.getattr r "severity" = Ok (VSeverity sev))
  /\ attrs.init ExtractCommandFailedReport (list_to_map
        [("command", VStr "unpack foo.bin");
         ("exit_code", VInt 2);
         ("stdout", VBytes []);
         ("stderr", VBytes (String.list_byte_of_string "bad header"))])
     = Ok (VInst "ExtractCommandFailedReport"
             [("severity", VSeverity WARNING);
              ("command", VStr "unpack foo.bin");
              ("stdout", VBytes []);
              ("stderr", VBytes (String.list_byte_of_string "bad header"));
              ("exit_code", VInt 2)]).
Proof.
  split; [| vm_compute; reflexivity].
  intros cls sev Hin.
  destruct (default_severity_first cls sev Hin) as [rest Hfields].
  assert (Hget : forall kwargs r,
             kwargs !! "severity" = None ->
             attrs.init cls kwargs = Ok r ->
             attrs.getattr r "severity" = Ok (VSeverity sev))
    by (intros kwargs r; by apply (init_default_first cls _ TSeverity _ rest)).
  pose proof (required_arguments_no_severity cls sev Hin) as Hnone.
  repeat split; [done.. |].
  pose proof (required_arguments_construct cls sev Hin) as Hok.
  destruct (attrs.init cls (required_arguments cls)) as [r |] eqn:Hr; [| discriminate].
  exists r. split; [reflexivity |]. by apply (Hget (required_arguments cls)).
Qed.

Lemma error_variants_default_severity_witness :
  exists r,
    attrs.init MaliciousSymlinkRemoved (required_arguments MaliciousSymlinkRemoved) = Ok r
    /\ attrs.getattr r "severity" = Ok (VSeverity WARNING).
Proof.
  apply (proj1 error_variants_default_severity MaliciousSymlinkRemoved WARNING).
  unfold default_severities. set_solver.
Defined.

(** ** Frozen classes *)

Lemma report_classes_frozen : Forall (fun c => c_frozen c = true) report_classes.
Proof. repeat constructor. Qed.

Lemma class_of_frozen obj cls : class_of obj = Some cls -> c_frozen cls = true.
Proof.
  destruct obj; try discriminate. simpl. unfold lookup_class. intros Hfind.
  apply find_some in Hfind as [Hin _].
  pose proof report_classes_frozen as Hall.
  rewrite Forall_forall in Hall. by apply Hall, list_elem_of_In.
Qed.

(** C7: the classes of the module are frozen, and freezing guards the
    attributes, not what they hold.  Through any reference to an instance
    of a class of the module, every attempt to bind an attribute with
    [r.name = value] or to unbind one with [del r.name] raises
    [FrozenInstanceError], and no operation that goes through the class
    (these two, reading an attribute, [asdict], [highest], [lowest])
    changes the heap: the report and everything else in it stay as they
    were. *)
Theorem reports_are_frozen (heap : gmap nat pyval) ref obj cls :
  heap !! ref = Some obj ->
  class_of obj = Some cls ->
  c_frozen cls = true
  /\ (forall name value,
        perform (SetAttr name value) heap ref = (Raise FrozenInstanceError, heap))
  /\ (forall name,
        perform (DelAttr name) heap ref = (Raise FrozenInstanceError, heap))
  /\ (forall op, through_class op = true -> (perform op heap ref).2 = heap).
Proof.
  intros Hobj Hcls. pose proof (class_of_frozen _ _ Hcls) as Hfrozen.
  split; [done |].
  assert (Hset : forall name value,
             perform (SetAttr name value) heap ref = (Raise FrozenInstanceError, heap)).
  { intros. unfold perform, attrs.setattr. by rewrite Hobj, Hcls, Hfrozen. }
  assert (Hdel : forall name,
             perform (DelAttr name) heap ref = (Raise FrozenInstanceError, heap)).
  { intros. unfold perform, attrs.delattr. by rewrite Hobj, Hcls, Hfrozen. }
  repeat split; [done.. |].
  intros [name value | name | name | | | | name value | name item] Hop;
    try discriminate.
  - by rewrite Hset.
  - by rewrite Hdel.
  - unfold perform. by rewrite Hobj.
  - unfold perform. by rewrite Hobj.
  - unfold perform. by rewrite Hobj.
  - unfold perform. by rewrite Hobj.
Qed.

Lemma reports_are_frozen_witness :
  perform (SetAttr "size" (VInt 0)) {[ 7%nat := example_chunk ]} 7%nat
  = (Raise FrozenInstanceError, {[ 7%nat := example_chunk ]}).
Proof.
  refine (proj1 (proj2 (reports_are_frozen {[ 7%nat := example_chunk ]} 7%nat
                          example_chunk ChunkReport _ _)) "size" (VInt 0)).
  - apply lookup_singleton_eq.
  - reflexivity.
Defined.

(** C7, as the specification states it, fails: a report can be changed
    after construction.  [object.__setattr__(r, "size", 0)] goes round
    the frozen class and rebinds the attribute, and
    [r.extraction_reports.append(x)] changes the list the report holds:
    neither raises, and the report read afterwards through the same
    reference is another. *)
Lemma reports_are_immutable_counterexample :
  let heap : gmap nat pyval := {[ 7%nat := example_chunk ]} in
  let rebound := perform (ObjectSetattr "size" (VInt 0)) heap 7%nat in
  let appended := perform (Append "extraction_reports" (VStr "x")) heap 7%nat in
  (perform (GetAttr "size") heap 7%nat).1 = Ok (VInt 512)
  /\ rebound.1 = Ok VNone
  /\ (perform (GetAttr "size") rebound.2 7%nat).1 = Ok (VInt 0)
  /\ (perform (GetAttr "extraction_reports") heap 7%nat).1
     = Ok (VList [VInst "MaliciousSymlinkRemoved"
                    [("severity", VSeverity WARNING); ("link", VStr "out/link");
                     ("target", VStr "/etc/passwd")]])
  /\ appended.1 = Ok VNone
  /\ (perform (GetAttr "extraction_reports") appended.2 7%nat).1
     = Ok (VList [VInst "MaliciousSymlinkRemoved"
                    [("severity", VSeverity WARNING); ("link", VStr "out/link");
                     ("target", VStr "/etc/passwd")];
                  VStr "x"]).
Proof.
  vm_compute. repeat split; reflexivity.
Qed.

Lemma asdict_expands_reports_witness :
  Report_asdict example_chunk = Ok (expand example_chunk)
  /\ plain (expand example_chunk) = true
  /\ exists cn slots,
       example_chunk = VInst cn slots
       /\ expand example_chunk = VDict ((fun kv => (VStr kv.1, expand kv.2)) <$> slots).
Proof.
  apply asdict_expands_reports. vm_compute. reflexivity.
Defined.

(** C8, as the specification states it, fails on reports the
    constructors accept, since they check no annotation.  A report whose
    attribute holds a dictionary keyed by a report makes [asdict] raise
    [TypeError]: the key is expanded to a dictionary, which cannot be a
    key.  A report whose attribute holds an object of another class keeps
    that object in the dictionary [asdict] returns. *)
Lemma asdict_expands_reports_counterexample :
  (exists r,
     attrs.init ExtractionProblem (list_to_map
       [("problem",
         VDict [(VInst "FileMagicReport"
                   [("magic", VStr "data"); ("mime_type", VStr "application/octet-stream")],
                 VInt 1)]);
        ("resolution", VStr "Skipped.")]) = Ok r
     /\ Report_asdict r = Raise (TypeError "unhashable type"))
  /\ (exists r d,
        attrs.init ExtractionProblem (list_to_map
          [("problem", VOpaque "Handler"); ("resolution", VStr "Skipped.")]) = Ok r
        /\ Report_asdict r = Ok d
        /\ d = VDict [(VStr "problem", VOpaque "Handler");
                      (VStr "resolution", VStr "Skipped."); (VStr "path", VNone)]
        /\ plain d = false).
Proof.
  split.
  - eexists. split; vm_compute; reflexivity.
  - do 2 eexists. split; [vm_compute; reflexivity |].
    split; [vm_compute; reflexivity |]. split; reflexivity.
Qed.

(** ** What the constructors check *)

Lemma EntropyReport_init (percentages block_size mean : pyval) :
  attrs.init EntropyReport (list_to_map
    [("percentages", percentages); ("block_size", block_size); ("mean", mean)])
  = Ok (VInst "EntropyReport"
          [("percentages", percentages); ("block_size", block_size); ("mean", mean)]).
Proof. vm_compute. reflexivity. Qed.

Lemma ChunkReport_init (id handler_name start_offset end_offset size is_encrypted
                          extraction_reports : pyval) :
  attrs.init ChunkReport (list_to_map
    [("id", id); ("handler_name", handler_name); ("start_offset", start_offset);
     ("end_offset", end_offset); ("size", size); ("is_encrypted", is_encrypted);
     ("extraction_reports", extraction_reports)])
  = Ok (VInst "ChunkReport"
          [("id", id); ("handler_name", handler_name); ("start_offset", start_offset);
           ("end_offset", end_offset); ("size", size); ("is_encrypted", is_encrypted);
           ("extraction_reports", extraction_reports)]).
Proof. vm_compute. reflexivity. Qed.

(** C3, as stated, fails: [EntropyReport] is constructed, well typed,
    with no percentages and a block size of 0, and with a percentage of
    150. *)
Lemma EntropyReport_invariant_counterexample :
  (exists r,
     attrs.init EntropyReport (list_to_map
       [("percentages", VList []); ("block_size", VInt 0); ("mean", VFloat 0)]) = Ok r
     /\ check_type (TInstance "EntropyReport") r = true
     /\ ~ EntropyReport_invariant r)
  /\ (exists r,
        attrs.init EntropyReport (list_to_map
          [("percentages", VList [VFloat 150]); ("block_size", VInt 1024);
           ("mean", VFloat 150)]) = Ok r
        /\ check_type (TInstance "EntropyReport") r = true
        /\ ~ EntropyReport_invariant r).
Proof.
  split; eexists; (split; [apply EntropyReport_init |]); (split; [reflexivity |]).
  - intros (p & b & Hp & Hb & qs & z & -> & -> & Hne & Hz & _).
    injection Hb as <-. lia.
  - intros (p & b & Hp & Hb & qs & z & -> & -> & Hne & Hz & Hall).
    injection Hp as Hp. destruct qs as [| q [| q' qs]]; try discriminate.
    injection Hp as <-. inversion Hall as [| ? ? [_ Hle] _]; subst.
    by apply Qle_bool_iff in Hle.
Qed.

(** C3, amended: the constructor of [EntropyReport] checks nothing and
    keeps the values it is given; the report has non-empty percentages
    within [0, 100] and a positive block size exactly when the values
    passed have. *)
Theorem EntropyReport_keeps_arguments (percentages block_size mean : pyval) :
  exists r,
    attrs.init EntropyReport (list_to_map
      [("percentages", percentages); ("block_size", block_size); ("mean", mean)]) = Ok r
    /\ attrs.getattr r "percentages" = Ok percentages
    /\ attrs.getattr r "block_size" = Ok block_size
    /\ attrs.getattr r "mean" = Ok mean
    /\ (EntropyReport_invariant r <-> entropy_values_valid percentages block_size).
Proof.
  eexists. split; [apply EntropyReport_init |].
  do 3 (split; [reflexivity |]).
  split.
  - intros (p & b & Hp & Hb & Hvalid). injection Hp as <-. by injection Hb as <-.
  - intros Hvalid. by exists percentages, block_size.
Qed.

(** C9, as stated, fails: a [ChunkReport] is constructed, well typed,
    that ends before it starts and whose size is not the difference. *)
Lemma ChunkReport_invariant_counterexample :
  exists r,
    attrs.init ChunkReport (list_to_map
      [("id", VStr "c0"); ("handler_name", VStr "zip"); ("start_offset", VInt 10);
       ("end_offset", VInt 5); ("size", VInt 99); ("is_encrypted", VBool false);
       ("extraction_reports", VList [])]) = Ok r
    /\ is_report r = true
    /\ ~ ChunkReport_invariant r.
Proof.
  eexists. split; [apply ChunkReport_init |]. split; [reflexivity |].
  intros (s & e & n & Hs & He & Hn & s' & e' & n' & -> & -> & -> & Hle & Hsize).
  injection Hs as <-. injection He as <-. lia.
Qed.

(** C9, amended: the constructor of [ChunkReport] checks nothing and
    keeps the offsets and the size it is given; [end_offset] is at least
    [start_offset] and [size] is their difference in the report exactly
    when they are in the values passed. *)
Theorem ChunkReport_keeps_arguments
    (id handler_name start_offset end_offset size is_encrypted extraction_reports : pyval) :
  exists r,
    attrs.init ChunkReport (list_to_map
      [("id", id); ("handler_name", handler_name); ("start_offset", start_offset);
       ("end_offset", end_offset); ("size", size); ("is_encrypted", is_encrypted);
       ("extraction_reports", extraction_reports)]) = Ok r
    /\ attrs.getattr r "start_offset" = Ok start_offset
    /\ attrs.getattr r "end_offset" = Ok end_offset
    /\ attrs.getattr r "size" = Ok size
    /\ (ChunkReport_invariant r <-> chunk_values_valid start_offset end_offset size).
Proof.
  eexists. split; [apply ChunkReport_init |].
  do 3 (split; [reflexivity |]).
  split.
  - intros (s & e & n & Hs & He & Hn & Hvalid).
    injection Hs as <-. injection He as <-. by injection Hn as <-.
  - intros Hvalid. by exists start_offset, end_offset, size.
Qed.

(** * Further properties *)

(** ** Construction *)

Ltac list_elem := repeat first [apply list_elem_of_here | apply list_elem_of_further].

Lemma mapM_result_Forall2 {A B} (f : A -> result B) l ys :
  mapM f l = Ok ys <-> Forall2 (fun x y => f x = Ok y) l ys.
Proof.
  revert ys. induction l as [| x l IH]; intros ys.
  - split.
    + intros H. injection H as <-. constructor.
    + intros H. by inversion H.
  - rewrite mapM_cons. split.
    + destruct (f x) as [y |] eqn:Hy; [| discriminate].
      destruct (mapM f l) as [k |] eqn:Hk; [| discriminate].
      intros H. injection H as <-. constructor; [done |]. by apply IH.
    + intros H. inversion H as [| ? y ? k Hy Hk]; subst.
      apply IH in Hk. by rewrite Hy, Hk.
Qed.

Lemma mapM_result_raise {A B} (f : A -> result B) l e :
  mapM f l = Raise e -> exists x, x ∈ l /\ f x = Raise e.
Proof.
  induction l as [| x l IH]; [discriminate |]. rewrite mapM_cons.
  destruct (f x) as [y |] eqn:Hy.
  - cbn [mbind result_bind]. destruct (mapM f l) as [k |]; [discriminate |].
    intros H. injection H as <-. destruct IH as (x' & Hin & Hx'); [done |].
    exists x'. split; [by right | done].
  - intros H. injection H as <-. exists x. split; [by left | done].
Qed.

Lemma mapM_result_fails {A B} (f : A -> result B) l x e :
  x ∈ l -> f x = Raise e -> exists e', mapM f l = Raise e'.
Proof.
  intros Hin Hx. induction l as [| y l IH]; [by apply elem_of_nil in Hin |].
  rewrite mapM_cons. destruct (f y) as [z |] eqn:Hy; [| eauto].
  cbn [mbind result_bind].
  apply elem_of_cons in Hin as [-> | Hin]; [congruence |].
  destruct (IH Hin) as [e' ->]. eauto.
Qed.

Lemma Forall2_elem_impl {A B} (R S : A -> B -> Prop) l k :
  Forall2 R l k -> (forall x y, x ∈ l -> R x y -> S x y) -> Forall2 S l k.
Proof.
  induction 1 as [| x y l k Hxy _ IH]; intros Himp; [constructor |].
  constructor; [apply Himp; [by left | done] |].
  apply IH. intros x' y' Hin. apply Himp. by right.
Qed.

Lemma bind_argument_fst kwargs a av : attrs.bind_argument kwargs a = Ok av -> av.1 = a.
Proof.
  unfold attrs.bind_argument. destruct (kwargs !! a_name a); [by intros [= <-] |].
  destruct (a_default a); [by intros [= <-] | discriminate].
Qed.

Lemma bind_argument_raises kwargs a e :
  attrs.bind_argument kwargs a = Raise e -> exists msg, e = TypeError msg.
Proof.
  unfold attrs.bind_argument. destruct (kwargs !! a_name a); [discriminate |].
  destruct (a_default a); [discriminate |]. intros H. injection H as <-. eauto.
Qed.

(** A call of a class returns a report exactly when it names attributes
    of the class only and every slot can be filled; the report has the
    slots of the fields, in order. *)
Lemma init_slots cls kwargs r :
  attrs.init cls kwargs = Ok r <->
  dom kwargs ⊆ list_to_set (C := gset string) (field_names cls)
  /\ exists slots, r = VInst (c_name cls) slots
                  /\ Forall2 (slot_of kwargs) (attrs.fields cls) slots.
Proof.
  unfold attrs.init, field_names. case_bool_decide as Hdom; split.
  - destruct (mapM (attrs.bind_argument kwargs) (attrs.fields cls)) as [args |] eqn:Hargs;
      [| discriminate].
    cbn [mbind result_bind].
    destruct (mapM attrs.set_slot args) as [slots |] eqn:Hslots; [| discriminate].
    intros H. injection H as <-. split; [done |]. exists slots. split; [done |].
    apply mapM_result_Forall2 in Hargs, Hslots. clear Hdom.
    revert slots Hslots. induction Hargs as [| a av fs args Ha _ IH]; intros slots Hslots.
    + inversion Hslots. constructor.
    + inversion Hslots as [| ? kv ? slots' Hkv Hrest]; subst.
      constructor; [| by apply IH].
      pose proof (bind_argument_fst _ _ _ Ha) as Hfst. destruct av as [a' v].
      simpl in Hfst. subst a'. by exists v.
  - intros (_ & slots & -> & Hall). clear Hdom.
    assert (exists args, Forall2 (fun a av => attrs.bind_argument kwargs a = Ok av)
                           (attrs.fields cls) args
                         /\ Forall2 (fun av kv => attrs.set_slot av = Ok kv) args slots)
      as (args & Hargs & Hslots).
    { induction Hall as [| a kv fs' slots' (v & Hv & Hkv) _ (args & IH1 & IH2)].
      - exists []. split; constructor.
      - exists ((a, v) :: args). split; by constructor. }
    apply mapM_result_Forall2 in Hargs, Hslots. rewrite Hargs.
    cbn [mbind result_bind]. by rewrite Hslots.
  - discriminate.
  - by intros [? _].
Qed.

Lemma slot_of_name kwargs a kv : slot_of kwargs a kv -> kv.1 = a_name a.
Proof.
  intros (v & _ & Hset). unfold attrs.set_slot in Hset.
  destruct (a_converter a) as [conv |].
  - destruct (conv v); [| discriminate]. cbn [mbind result_bind] in Hset.
    by injection Hset as <-.
  - by injection Hset as <-.
Qed.

Lemma slot_of_given kwargs a v kv :
  kwargs !! a_name a = Some v -> slot_of kwargs a kv -> attrs.set_slot (a, v) = Ok kv.
Proof.
  intros Hv (v' & Hbind & Hset). unfold attrs.bind_argument in Hbind.
  rewrite Hv in Hbind. by injection Hbind as <-.
Qed.

Lemma slot_of_default kwargs a d kv :
  kwargs !! a_name a = None -> a_default a = Some d ->
  slot_of kwargs a kv -> attrs.set_slot (a, d) = Ok kv.
Proof.
  intros Hv Hd (v' & Hbind & Hset). unfold attrs.bind_argument in Hbind.
  rewrite Hv, Hd in Hbind. by injection Hbind as <-.
Qed.

Lemma slots_names kwargs fs slots :
  Forall2 (slot_of kwargs) fs slots -> slots.*1 = a_name <$> fs.
Proof.
  induction 1 as [| a kv fs slots Ha _ IH]; [done |].
  rewrite !fmap_cons, IH. f_equal. by eapply slot_of_name.
Qed.

Lemma lookup_slot_Forall2 kwargs fs slots a :
  NoDup (a_name <$> fs) ->
  Forall2 (slot_of kwargs) fs slots ->
  a ∈ fs ->
  exists v, attrs.lookup_slot slots (a_name a) = Some v /\ slot_of kwargs a (a_name a, v).
Proof.
  intros Hnd Hall. induction Hall as [| b kv fs' slots' Hb _ IH]; intros Hin.
  - by apply elem_of_nil in Hin.
  - rewrite fmap_cons in Hnd. apply NoDup_cons in Hnd as [Hnotin Hnd].
    pose proof (slot_of_name _ _ _ Hb) as Hname. destruct kv as [k v]. simpl in *. subst k.
    apply elem_of_cons in Hin as [-> | Hin].
    + exists v. by rewrite bool_decide_eq_true_2.
    + rewrite bool_decide_eq_false_2; [by apply IH |].
      intros Heq. apply Hnotin. rewrite Heq. by apply (list_elem_of_fmap_2 a_name).
Qed.

(** No class of the module has two attributes of one name. *)
Lemma report_classes_NoDup :
  Forall (fun c => NoDup (field_names c)) report_classes.
Proof.
  unfold report_classes.
  repeat (apply List.Forall_cons; [apply (bool_decide_unpack _); vm_compute; exact I |]).
  apply List.Forall_nil.
Qed.

Lemma report_class_NoDup cls : cls ∈ report_classes -> NoDup (field_names cls).
Proof.
  intros Hin. pose proof report_classes_NoDup as Hall.
  rewrite Forall_forall in Hall. by apply Hall.
Qed.

(** What [getattr] reads on a constructed report is what [__init__]
    stored. *)
Lemma init_getattr cls kwargs r a :
  NoDup (field_names cls) ->
  attrs.init cls kwargs = Ok r ->
  a ∈ attrs.fields cls ->
  exists v, attrs.getattr r (a_name a) = Ok v /\ slot_of kwargs a (a_name a, v).
Proof.
  intros Hnd (_ & slots & -> & Hall)%init_slots Hin.
  destruct (lookup_slot_Forall2 _ _ _ _ Hnd Hall Hin) as (v & Hv & Hslot).
  exists v. simpl. by rewrite Hv.
Qed.

Lemma unknown_error_exception cls :
  cls ∈ unknown_error_classes ->
  cls ∈ report_classes
  /\ Attribute "exception" TSTR None (Some exception_converter) ∈ attrs.fields cls.
Proof.
  unfold unknown_error_classes. intros H.
  repeat (apply elem_of_cons in H as [-> | H];
          [split; [unfold report_classes | vm_compute]; list_elem |]).
  by apply elem_of_nil in H.
Qed.

Lemma unknown_error_converters cls a :
  cls ∈ unknown_error_classes ->
  a ∈ attrs.fields cls ->
  a_converter a = None
  \/ a = Attribute "exception" TSTR None (Some exception_converter).
Proof.
  unfold unknown_error_classes. intros H.
  repeat (apply elem_of_cons in H as [-> | H];
          [vm_compute attrs.fields; intros Ha;
           repeat (apply elem_of_cons in Ha as [-> | Ha]; [by auto |]);
           by apply elem_of_nil in Ha |]).
  by apply elem_of_nil in H.
Qed.

(** The [exception] slot of a constructed [UnknownError] holds what the
    converter made of the argument. *)
Lemma unknown_error_stored cls kwargs r :
  cls ∈ unknown_error_classes ->
  attrs.init cls kwargs = Ok r ->
  exists obj v,
    kwargs !! "exception" = Some obj
    /\ exception_converter obj = Ok v
    /\ attrs.getattr r "exception" = Ok v.
Proof.
  intros [Hcls Hattr]%unknown_error_exception Hinit.
  destruct (init_getattr cls kwargs r _ (report_class_NoDup _ Hcls) Hinit Hattr)
    as (v & Hget & obj & Hbind & Hset).
  unfold attrs.bind_argument in Hbind. simpl in Hbind.
  destruct (kwargs !! "exception") as [obj' |]; [| discriminate].
  injection Hbind as <-. exists obj', v. split; [done |]. split; [| done].
  unfold attrs.set_slot in Hset. simpl in Hset.
  destruct (exception_converter obj') as [v' |]; [| discriminate].
  cbn [mbind result_bind] in Hset. by injection Hset as <-.
Qed.

(** X1: the exception of an [UnknownError], or of a class derived from
    it, is formatted when the report is constructed: whatever the call,
    the [exception] attribute of the report it returns is text, the one
    [_convert_exception_to_str] makes of the argument. *)
Theorem UnknownError_exception_is_text cls kwargs r :
  cls ∈ unknown_error_classes ->
  attrs.init cls kwargs = Ok r ->
  exists obj text,
    kwargs !! "exception" = Some obj
    /\ _convert_exception_to_str obj = Ok text
    /\ attrs.getattr r "exception" = Ok (VStr text).
Proof.
  intros Hcls Hinit.
  destruct (unknown_error_stored _ _ _ Hcls Hinit) as (obj & v & Hobj & Hconv & Hget).
  unfold exception_converter in Hconv.
  destruct (_convert_exception_to_str obj) as [text |] eqn:Htext; [| discriminate].
  cbn [mbind result_bind] in Hconv. injection Hconv as <-. by exists obj, text.
Qed.

Lemma UnknownError_exception_is_text_witness :
  exists obj text,
    (list_to_map [("exception", VExc example_exception); ("start_offset", VInt 64);
                  ("handler", VStr "zip")] : gmap string pyval) !! "exception" = Some obj
    /\ _convert_exception_to_str obj = Ok text
    /\ attrs.getattr
         (VInst "CalculateChunkExceptionReport"
            [("severity", VSeverity ERROR);
             ("exception", VStr (join (Traceback.format_exception example_exception)));
             ("start_offset", VInt 64); ("handler", VStr "zip")])
         "exception" = Ok (VStr text).
Proof.
  apply (UnknownError_exception_is_text CalculateChunkExceptionReport).
  - unfold unknown_error_classes. list_elem.
  - vm_compute. reflexivity.
Defined.

(** X2: an [UnknownError] cannot be constructed from an object that is
    neither text nor an exception: the call raises, the [ValueError] of
    the converter unless the arguments themselves are refused with a
    [TypeError]. *)
Theorem UnknownError_rejects_other_objects cls kwargs obj :
  cls ∈ unknown_error_classes ->
  kwargs !! "exception" = Some obj ->
  isinstance_str obj = false ->
  isinstance_Exception obj = false ->
  exists e,
    attrs.init cls kwargs = Raise e
    /\ (e = ValueError [VStr "Invalid exception object"; obj]
        \/ exists msg, e = TypeError msg).
Proof.
  intros Hcls Hobj Hstr Hexc.
  destruct (attrs.init cls kwargs) as [r | e] eqn:Hinit.
  { destruct (unknown_error_stored _ _ _ Hcls Hinit) as (obj' & v & Ho & Hc & _).
    rewrite Hobj in Ho. injection Ho as <-.
    destruct obj; simpl in *; discriminate. }
  exists e. split; [done |].
  unfold attrs.init in Hinit. case_bool_decide; [| injection Hinit as <-; eauto].
  destruct (mapM (attrs.bind_argument kwargs) (attrs.fields cls)) as [args |] eqn:Hargs.
  - cbn [mbind result_bind] in Hinit.
    destruct (mapM attrs.set_slot args) as [slots |] eqn:Hslots; [discriminate |].
    injection Hinit as <-.
    apply mapM_result_raise in Hslots as ([a v] & Hin & Hset).
    apply mapM_result_Forall2 in Hargs.
    apply list_elem_of_lookup_1 in Hin as [i Hi].
    destruct (Forall2_lookup_r _ _ _ _ _ Hargs Hi) as (a' & Ha' & Hbind).
    pose proof (bind_argument_fst _ _ _ Hbind) as Hfst. simpl in Hfst. subst a'.
    apply list_elem_of_lookup_2 in Ha'.
    destruct (unknown_error_converters _ _ Hcls Ha') as [Hnone | ->].
    + unfold attrs.set_slot in Hset. by rewrite Hnone in Hset.
    + unfold attrs.bind_argument in Hbind. simpl in Hbind. rewrite Hobj in Hbind.
      injection Hbind as <-.
      unfold attrs.set_slot, exception_converter in Hset. simpl in Hset.
      left. destruct obj; simpl in *; try discriminate; by injection Hset as <-.
  - injection Hinit as <-. right.
    apply mapM_result_raise in Hargs as (a & _ & Ha).
    by apply bind_argument_raises in Ha.
Qed.

Lemma UnknownError_rejects_other_objects_witness :
  exists e,
    attrs.init UnknownError {[ "exception" := VInt 3 ]} = Raise e
    /\ (e = ValueError [VStr "Invalid exception object"; VInt 3]
        \/ exists msg, e = TypeError msg).
Proof.
  apply UnknownError_rejects_other_objects.
  - unfold unknown_error_classes. list_elem.
  - apply lookup_singleton_eq.
  - reflexivity.
  - reflexivity.
Defined.

(** X3: no class of the module checks or changes what it is given for an
    attribute without converter: the report a call returns holds, under
    each such attribute the call names, the very value passed (a
    [severity] passed explicitly replaces the default). *)
Theorem init_keeps_arguments cls kwargs r a v :
  cls ∈ report_classes ->
  a ∈ attrs.fields cls ->
  a_converter a = None ->
  kwargs !! a_name a = Some v ->
  attrs.init cls kwargs = Ok r ->
  attrs.getattr r (a_name a) = Ok v.
Proof.
  intros Hcls Hin Hconv Hv Hinit.
  destruct (init_getattr cls kwargs r a (report_class_NoDup _ Hcls) Hinit Hin)
    as (v' & Hget & Hslot).
  apply (slot_of_given _ _ v) in Hslot; [| done].
  unfold attrs.set_slot in Hslot. rewrite Hconv in Hslot. by injection Hslot as <-.
Qed.

Lemma init_keeps_arguments_witness :
  attrs.getattr
    (VInst "MaliciousSymlinkRemoved"
       [("severity", VSeverity ERROR); ("link", VStr "out/link");
        ("target", VStr "/etc/passwd")])
    "severity" = Ok (VSeverity ERROR).
Proof.
  apply (init_keeps_arguments MaliciousSymlinkRemoved
           (list_to_map [("severity", VSeverity ERROR); ("link", VStr "out/link");
                         ("target", VStr "/etc/passwd")])
           _ (with_default "severity" TSeverity (VSeverity WARNING))).
  - unfold report_classes. list_elem.
  - vm_compute. list_elem.
  - reflexivity.
  - vm_compute. reflexivity.
  - vm_compute. reflexivity.
Defined.

(** The attributes with a default: [severity] in the classes derived
    from [ErrorReport], and [path] in [ExtractionProblem]. *)
Lemma report_defaults cls a :
  cls ∈ report_classes ->
  a ∈ attrs.fields cls ->
  a_default a = None
  \/ (a_name a = "severity" /\ c_name cls <> "ErrorReport")
  \/ (a_name a = "path" /\ c_name cls = "ExtractionProblem").
Proof.
  unfold report_classes. intros H.
  repeat (apply elem_of_cons in H as [-> | H];
          [vm_compute attrs.fields; intros Ha;
           repeat (apply elem_of_cons in Ha as [-> | Ha];
                   [first [by left | by right; left | by right; right] |]);
           by apply elem_of_nil in Ha |]).
  by apply elem_of_nil in H.
Qed.

(** X4: every attribute of every class of the module is required, but
    the [severity] of the classes derived from [ErrorReport] and the
    [path] of [ExtractionProblem]: a call that leaves a required one out
    raises [TypeError] and constructs nothing ([ErrorReport] itself has
    no default severity). *)
Theorem init_requires_attributes cls kwargs a :
  cls ∈ report_classes ->
  a ∈ attrs.fields cls ->
  ~ (a_name a = "severity" /\ c_name cls <> "ErrorReport") ->
  ~ (a_name a = "path" /\ c_name cls = "ExtractionProblem") ->
  kwargs !! a_name a = None ->
  exists msg, attrs.init cls kwargs = Raise (TypeError msg).
Proof.
  intros Hcls Hin Hsev Hpath Hnone.
  assert (Hdef : a_default a = None)
    by (destruct (report_defaults _ _ Hcls Hin) as [? | [? | ?]]; done).
  unfold attrs.init. case_bool_decide; [| eauto].
  assert (Ha : attrs.bind_argument kwargs a
               = Raise (TypeError ("__init__() missing required keyword-only argument: "
                                     +:+ a_name a)))
    by (unfold attrs.bind_argument; by rewrite Hnone, Hdef).
  destruct (mapM_result_fails _ _ _ _ Hin Ha) as [e' He']. rewrite He'.
  apply mapM_result_raise in He' as (b & _ & Hb).
  apply bind_argument_raises in Hb as [msg ->]. eauto.
Qed.

Lemma init_requires_attributes_witness :
  exists msg, attrs.init ErrorReport ∅ = Raise (TypeError msg).
Proof.
  apply (init_requires_attributes ErrorReport ∅ (required "severity" TSeverity)).
  - unfold report_classes. list_elem.
  - vm_compute. list_elem.
  - intros [_ Hne]. by apply Hne.
  - intros [Hne _]. discriminate.
  - apply lookup_empty.
Defined.

Lemma ExtractionProblem_init (problem resolution : pyval) :
  attrs.init ExtractionProblem (list_to_map
    [("problem", problem); ("resolution", resolution)])
  = Ok (VInst "ExtractionProblem"
          [("problem", problem); ("resolution", resolution); ("path", VNone)]).
Proof. vm_compute. reflexivity. Qed.

(** X5: the [path] of an [ExtractionProblem] is optional: a call with
    the problem and the resolution alone returns, and every report
    constructed without a [path] has [path = None]. *)
Theorem ExtractionProblem_path_default :
  (forall problem resolution, exists r,
     attrs.init ExtractionProblem (list_to_map
       [("problem", problem); ("resolution", resolution)]) = Ok r
     /\ attrs.getattr r "problem" = Ok problem
     /\ attrs.getattr r "resolution" = Ok resolution
     /\ attrs.getattr r "path" = Ok VNone)
  /\ (forall kwargs r,
        kwargs !! "path" = None ->
        attrs.init ExtractionProblem kwargs = Ok r ->
        attrs.getattr r "path" = Ok VNone).
Proof.
  split.
  - intros problem resolution. eexists. split; [apply ExtractionProblem_init |]. done.
  - intros kwargs r Hnone Hinit.
    destruct (init_getattr ExtractionProblem kwargs r
                (with_default "path" (TOptional TStr) VNone)) as (v & Hget & Hslot);
      [apply report_class_NoDup; unfold report_classes; list_elem | done
       | vm_compute; list_elem |].
    apply (slot_of_default _ _ VNone) in Hslot; [| done..].
    by injection Hslot as <-.
Qed.

Lemma ExtractionProblem_path_default_witness :
  attrs.getattr
    (VInst "ExtractionProblem"
       [("problem", VStr "duplicate entry"); ("resolution", VStr "skipped");
        ("path", VNone)])
    "path" = Ok VNone.
Proof.
  apply (proj2 ExtractionProblem_path_default
           (list_to_map [("problem", VStr "duplicate entry");
                         ("resolution", VStr "skipped")])).
  - vm_compute. reflexivity.
  - vm_compute. reflexivity.
Defined.

(** Every attribute of the module is plain, but [exception]. *)
Lemma report_attributes cls a :
  cls ∈ report_classes ->
  a ∈ attrs.fields cls ->
  plain_attribute a \/ a = Attribute "exception" TSTR None (Some exception_converter).
Proof.
  unfold report_classes. intros H.
  repeat (apply elem_of_cons in H as [-> | H];
          [vm_compute attrs.fields; intros Ha;
           repeat (apply elem_of_cons in Ha as [-> | Ha];
                   [first [by right
                          | left; split; [done | split; [done | by intros d [= <-]]]] |]);
           by apply elem_of_nil in Ha |]).
  by apply elem_of_nil in H.
Qed.

Lemma report_class_lookup cls :
  cls ∈ report_classes ->
  lookup_class (c_name cls) = Some cls /\ issubclass cls "Report" = true.
Proof.
  unfold report_classes. intros H.
  repeat (apply elem_of_cons in H as [-> | H]; [by split |]).
  by apply elem_of_nil in H.
Qed.

Lemma issubclass_refl cls : issubclass cls (c_name cls) = true.
Proof. destruct cls. simpl. by rewrite bool_decide_eq_true_2. Qed.

Lemma check_instance cn slots name cls :
  lookup_class cn = Some cls ->
  issubclass cls name = true ->
  Forall2 (fun a kv => kv.1 = a_name a /\ check_value kv.2 (a_type a) = true)
          (attrs.fields cls) slots ->
  check_value (VInst cn slots) (TInstance name) = true.
Proof.
  intros Hcls Hsub Hall. simpl. rewrite Hcls, Hsub. simpl.
  induction Hall as [| a [k v] fs slots' [Hk Hv] _ IH]; [done |].
  simpl in *. subst k. by rewrite bool_decide_eq_true_2, Hv, IH.
Qed.

(** X6: a report constructed from arguments that agree with the
    annotations of its class is a well-typed report, and [asdict] turns
    it into plain data without raising. *)
Theorem init_builds_typed_reports cls kwargs r :
  cls ∈ report_classes ->
  (forall a v, a ∈ attrs.fields cls -> kwargs !! a_name a = Some v ->
               accepts (a_type a) v = true) ->
  attrs.init cls kwargs = Ok r ->
  check_type (TInstance (c_name cls)) r = true
  /\ is_report r = true
  /\ exists d, Report_asdict r = Ok d /\ plain d = true.
Proof.
  intros Hcls Hargs (_ & slots & -> & Hall)%init_slots.
  destruct (report_class_lookup _ Hcls) as [Hlookup Hreport].
  assert (Htyped : Forall2 (fun a kv => kv.1 = a_name a
                                        /\ check_value kv.2 (a_type a) = true)
                           (attrs.fields cls) slots).
  { eapply Forall2_elem_impl; [exact Hall |]. intros a kv Hafs Ha.
    split; [by eapply slot_of_name |].
    destruct Ha as (v & Hbind & Hset).
    assert (Hv : accepts (a_type a) v = true).
    { unfold attrs.bind_argument in Hbind.
      destruct (kwargs !! a_name a) as [v' |] eqn:Hkw.
      - injection Hbind as <-. by eapply Hargs.
      - destruct (a_default a) as [d |] eqn:Hd; [| discriminate]. injection Hbind as <-.
        destruct (report_attributes _ _ Hcls Hafs) as [(_ & _ & Hdef) | ->];
          [| discriminate].
        unfold accepts. by rewrite (Hdef _ Hd). }
    destruct (report_attributes _ _ Hcls Hafs) as [(Hconv & Hnot & _) | ->].
    - unfold attrs.set_slot in Hset. rewrite Hconv in Hset. injection Hset as <-.
      unfold accepts in Hv. apply orb_true_iff in Hv as [Hv | Hv]; [done |].
      destruct (a_type a), v; done.
    - unfold attrs.set_slot, exception_converter in Hset. simpl in Hset.
      destruct v; try discriminate; simpl in Hset; by injection Hset as <-. }
  assert (Hcheck : forall name, issubclass cls name = true ->
                                check_value (VInst (c_name cls) slots) (TInstance name) = true)
    by (intros; by eapply check_instance).
  split; [apply Hcheck, issubclass_refl |]. split; [by apply Hcheck |].
  destruct (asdict_anything_typed (VInst (c_name cls) slots)) as (d & Hd & Hp);
    [exists (TInstance "Report"); by apply Hcheck |].
  exists d. done.
Qed.

Lemma init_builds_typed_reports_witness :
  is_report
    (VInst "UnknownError"
       [("severity", VSeverity ERROR);
        ("exception", VStr (join (Traceback.format_exception example_exception)))])
  = true.
Proof.
  refine (proj1 (proj2 (init_builds_typed_reports UnknownError
                          {[ "exception" := VExc example_exception ]} _ _ _ _))).
  - unfold report_classes. list_elem.
  - intros a v Ha.
    change (attrs.fields UnknownError)
      with [with_default "severity" TSeverity (VSeverity ERROR);
            Attribute "exception" TSTR None (Some exception_converter)] in Ha.
    apply elem_of_cons in Ha as [-> | Ha].
    { unfold with_default. cbn [a_name a_type].
      rewrite lookup_singleton_ne by done. discriminate. }
    apply elem_of_cons in Ha as [-> | Ha]; [| by apply elem_of_nil in Ha].
    cbn [a_name a_type]. rewrite lookup_singleton_eq. intros Hv. by injection Hv as <-.
  - vm_compute. reflexivity.
Defined.

(** X7: the classes are arranged as the errors are told apart: every
    class derives from [Report]; a class has a [severity] exactly when it
    derives from [ErrorReport], and an [exception] exactly when it
    derives from [UnknownError]. *)
Theorem report_hierarchy cls :
  cls ∈ report_classes ->
  issubclass cls "Report" = true
  /\ (issubclass cls "ErrorReport" = true <-> "severity" ∈ field_names cls)
  /\ (issubclass cls "UnknownError" = true <-> "exception" ∈ field_names cls).
Proof.
  intros Hcls.
  assert (H : issubclass cls "Report" = true
              /\ bool_decide ("severity" ∈ field_names cls) = issubclass cls "ErrorReport"
              /\ bool_decide ("exception" ∈ field_names cls) = issubclass cls "UnknownError").
  { revert Hcls. unfold report_classes. intros H.
    repeat (apply elem_of_cons in H as [-> | H]; [by vm_compute |]).
    by apply elem_of_nil in H. }
  destruct H as (Hreport & Hsev & Hexc). split; [done |].
  rewrite <- Hsev, <- Hexc. split; apply bool_decide_eq_true.
Qed.

Lemma report_hierarchy_witness :
  issubclass CalculateMultiFileExceptionReport "ErrorReport" = true
  <-> "severity" ∈ field_names CalculateMultiFileExceptionReport.
Proof.
  apply (report_hierarchy CalculateMultiFileExceptionReport).
  unfold report_classes. list_elem.
Defined.

(** ** File system snapshot, further *)

Lemma S_ISLNK_not_others mode :
  stat.S_ISLNK mode = true -> stat.S_ISDIR mode = false /\ stat.S_ISREG mode = false.
Proof.
  unfold stat.S_ISREG, stat.S_ISDIR, stat.S_ISLNK. intros ->%Z.eqb_eq. done.
Qed.

Lemma StatReport_from_path_lstat_raise fs path e :
  lstat fs path = Raise e -> StatReport_from_path StatReport fs path = Raise e.
Proof. intros Hst. unfold StatReport_from_path. by rewrite Hst. Qed.

(** The report of a symbolic link whose target is read. *)
Lemma StatReport_from_path_link_value fs path st target :
  lstat fs path = Ok st ->
  readlink fs path = Ok target ->
  StatReport_from_path StatReport fs path
  = Ok (VInst "StatReport"
          [("path", VPath path);
           ("size", VInt (st_size st));
           ("is_dir", VBool false);
           ("is_file", VBool false);
           ("is_link", VBool true);
           ("link_target", VPath target)]).
Proof.
  intros Hst Hlink. rewrite (StatReport_from_path_value _ _ _ Hst), Hlink.
  pose proof (readlink_is_a_link _ _ _ _ Hlink Hst) as Hlnk.
  destruct (S_ISLNK_not_others _ Hlnk) as [Hdir Hreg].
  by rewrite Hlnk, Hdir, Hreg.
Qed.

(** X8: [StatReport.from_path] raises exactly when [lstat] does, and
    what [lstat] raised: the call of [os.readlink] and the construction
    add no failure of their own. *)
Theorem StatReport_from_path_raises fs path e :
  StatReport_from_path StatReport fs path = Raise e <-> lstat fs path = Raise e.
Proof.
  destruct (lstat fs path) as [st | e'] eqn:Hst.
  - rewrite (StatReport_from_path_value _ _ _ Hst). split; discriminate.
  - rewrite (StatReport_from_path_lstat_raise _ _ _ Hst).
    split; intros H; injection H as <-; reflexivity.
Qed.

Lemma StatReport_from_path_raises_witness :
  StatReport_from_path StatReport example_fs "/fw/missing"
  = Raise (OSError ENOENT "/fw/missing").
Proof.
  apply StatReport_from_path_raises. vm_compute. reflexivity.
Defined.

(** X9: a symbolic link whose target can be read is reported with its
    own size, [is_link] true, [is_file] and [is_dir] false and the target
    as [link_target]. *)
Theorem StatReport_from_path_symlink fs path st target :
  lstat fs path = Ok st ->
  readlink fs path = Ok target ->
  StatReport_from_path StatReport fs path
  = Ok (VInst "StatReport"
          [("path", VPath path);
           ("size", VInt (st_size st));
           ("is_dir", VBool false);
           ("is_file", VBool false);
           ("is_link", VBool true);
           ("link_target", VPath target)]).
Proof.
  intros Hst Hlink.
  pose proof (readlink_is_a_link _ _ _ _ Hlink Hst) as Hlnk.
  destruct (S_ISLNK_not_others _ Hlnk) as [Hdir Hreg].
  rewrite (StatReport_from_path_value _ _ _ Hst), Hlink.
  by rewrite Hlnk, Hdir, Hreg.
Qed.

Lemma StatReport_from_path_symlink_witness :
  StatReport_from_path StatReport example_fs "/fw/link"
  = Ok (VInst "StatReport"
          [("path", VPath "/fw/link");
           ("size", VInt 9);
           ("is_dir", VBool false);
           ("is_file", VBool false);
           ("is_link", VBool true);
           ("link_target", VPath "/fw/a.bin")]).
Proof.
  apply (StatReport_from_path_symlink example_fs "/fw/link" (StatResult 0xA1FF 9));
    vm_compute; reflexivity.
Defined.

(** X10: a [link_target] is reported for symbolic links only: when the
    report has one, that is anything but [None], [os.readlink] returned
    and it is the path made of what it returned, [is_link] is true and
    [is_file] and [is_dir] are false. *)
Theorem StatReport_link_target_only_on_links fs path r v :
  StatReport_from_path StatReport fs path = Ok r ->
  attrs.getattr r "link_target" = Ok v ->
  v <> VNone ->
  (exists target, readlink fs path = Ok target /\ v = VPath target)
  /\ attrs.getattr r "is_link" = Ok (VBool true)
  /\ attrs.getattr r "is_file" = Ok (VBool false)
  /\ attrs.getattr r "is_dir" = Ok (VBool false).
Proof.
  intros Hr Hget Hsome.
  destruct (lstat fs path) as [st | e] eqn:Hst;
    [| rewrite (StatReport_from_path_lstat_raise _ _ _ Hst) in Hr; discriminate].
  destruct (readlink fs path) as [t | e] eqn:Hlink.
  - rewrite (StatReport_from_path_link_value _ _ _ _ Hst Hlink) in Hr.
    injection Hr as <-. simpl in Hget. injection Hget as <-.
    split; [by exists t | done].
  - rewrite (StatReport_from_path_value _ _ _ Hst), Hlink in Hr.
    injection Hr as <-. simpl in Hget. by injection Hget as <-.
Qed.

Lemma StatReport_link_target_only_on_links_witness :
  (exists target, readlink example_fs "/fw/link" = Ok target /\ VPath "/fw/a.bin" = VPath target)
  /\ attrs.getattr
       (VInst "StatReport"
          [("path", VPath "/fw/link"); ("size", VInt 9);
           ("is_dir", VBool false); ("is_file", VBool false);
           ("is_link", VBool true); ("link_target", VPath "/fw/a.bin")])
       "is_link" = Ok (VBool true).
Proof.
  refine (let H := StatReport_link_target_only_on_links example_fs "/fw/link"
                     (VInst "StatReport"
                        [("path", VPath "/fw/link"); ("size", VInt 9);
                         ("is_dir", VBool false); ("is_file", VBool false);
                         ("is_link", VBool true); ("link_target", VPath "/fw/a.bin")])
                     (VPath "/fw/a.bin") _ _ _ in
          conj (proj1 H) (proj1 (proj2 H))).
  - vm_compute. reflexivity.
  - reflexivity.
  - discriminate.
Defined.

(** X11: the report [StatReport.from_path] returns agrees with the
    annotations of [StatReport]: it is a well-typed report. *)
Theorem StatReport_from_path_typed fs path r :
  StatReport_from_path StatReport fs path = Ok r ->
  check_type (TInstance "StatReport") r = true /\ is_report r = true.
Proof.
  intros Hr.
  destruct (lstat fs path) as [st | e] eqn:Hst;
    [| rewrite (StatReport_from_path_lstat_raise _ _ _ Hst) in Hr; discriminate].
  rewrite (StatReport_from_path_value _ _ _ Hst) in Hr. injection Hr as <-.
  by destruct (readlink fs path).
Qed.

Lemma StatReport_from_path_typed_witness :
  is_report
    (VInst "StatReport"
       [("path", VPath "/fw"); ("size", VInt 4096); ("is_dir", VBool true);
        ("is_file", VBool false); ("is_link", VBool false); ("link_target", VNone)])
  = true.
Proof.
  refine (proj2 (StatReport_from_path_typed example_fs "/fw" _ _)).
  vm_compute. reflexivity.
Defined.

(** ** Digests, further *)

Lemma read_loop_step {A : Type} (update : A -> list Byte.byte -> A) chunk_size f acc :
  read_loop update chunk_size f acc
  = match file_read f chunk_size with
    | ([], _) => acc
    | (chunk, f') => read_loop update chunk_size f' (update acc chunk)
    end.
Proof.
  funelim (read_loop update chunk_size f acc);
    match goal with E : file_read _ _ = _ |- _ => by rewrite E end.
Qed.

Lemma file_read_shrinks f size b chunk f' :
  file_read f size = (b :: chunk, f') -> (length f' < length f)%nat.
Proof.
  unfold file_read. destruct (size <? 0).
  - intros [= -> <-]. simpl. lia.
  - intros [= Htake <-]. rewrite length_drop.
    destruct (Z.to_nat size); [discriminate |].
    destruct f; [discriminate |]. simpl. lia.
Qed.

(** The loop started on what a fold has made of the chunks seen so far
    ends on the fold over all the chunks. *)
Lemma read_loop_fold_from {A : Type} (update : A -> list Byte.byte -> A) chunk_size :
  forall n f, (length f <= n)%nat -> forall (acc : A) (seen : list (list Byte.byte)),
  read_loop update chunk_size f (fold_left update seen acc)
  = fold_left update
      (read_loop (fun acc chunk => acc ++ [chunk]) chunk_size f seen) acc.
Proof.
  induction n as [| n IH]; intros f Hlen acc seen.
  - destruct f; [| simpl in Hlen; lia].
    rewrite !(read_loop_step _ chunk_size []).
    unfold file_read. destruct (chunk_size <? 0); [done |].
    by rewrite take_nil.
  - rewrite !(read_loop_step _ chunk_size f).
    destruct (file_read f chunk_size) as [[| b chunk] f'] eqn:Hread; [done |].
    apply file_read_shrinks in Hread.
    rewrite <- (IH f') by lia. by rewrite fold_left_app.
Qed.

Lemma read_loop_chunks {A : Type} (update : A -> list Byte.byte -> A) chunk_size f acc :
  read_loop update chunk_size f acc = fold_left update (chunks_read chunk_size f) acc.
Proof. exact (read_loop_fold_from update chunk_size (length f) f (le_n _) acc []). Qed.

Lemma fold_left_snoc {B} (l pre : list B) :
  fold_left (fun acc c => acc ++ [c]) l pre = pre ++ l.
Proof.
  revert pre. induction l as [| x l IH]; intros pre; simpl; [by rewrite app_nil_r |].
  by rewrite IH, <- app_assoc.
Qed.

Lemma chunks_read_cons chunk_size f b chunk f' :
  file_read f chunk_size = (b :: chunk, f') ->
  chunks_read chunk_size f = (b :: chunk) :: chunks_read chunk_size f'.
Proof.
  intros Hread. unfold chunks_read at 1. rewrite read_loop_step, Hread.
  rewrite (read_loop_chunks _ chunk_size f'). by rewrite fold_left_snoc.
Qed.

Lemma chunks_read_empty chunk_size : chunks_read chunk_size [] = [].
Proof.
  unfold chunks_read. rewrite read_loop_step. unfold file_read.
  destruct (chunk_size <? 0); [done |]. by rewrite take_nil.
Qed.

Lemma chunks_read_step chunk_size f :
  0 < chunk_size -> f <> [] ->
  chunks_read chunk_size f
  = take (Z.to_nat chunk_size) f :: chunks_read chunk_size (drop (Z.to_nat chunk_size) f).
Proof.
  intros Hpos Hne.
  assert (Hread : file_read f chunk_size
                  = (take (Z.to_nat chunk_size) f, drop (Z.to_nat chunk_size) f)).
  { unfold file_read. destruct (chunk_size <? 0) eqn:Hneg; [lia | done]. }
  destruct (take (Z.to_nat chunk_size) f) as [| b chunk] eqn:Htake.
  - destruct f; [done |]. destruct (Z.to_nat chunk_size) eqn:Hn; [lia | discriminate].
  - by apply chunks_read_cons.
Qed.

(** X12: the loop of [HashReport.from_path] reads the file in
    consecutive slices of [chunk_size] bytes: with a positive chunk size
    the chunks, put end to end, are the file; chunk [i] is the slice
    that starts at [i * chunk_size], at most [chunk_size] long and never
    empty; and their number is the length divided by the chunk size,
    rounded up. *)
Theorem chunks_read_slices chunk_size f :
  0 < chunk_size ->
  concat (chunks_read chunk_size f) = f
  /\ (forall i chunk,
        chunks_read chunk_size f !! i = Some chunk ->
        chunk = take (Z.to_nat chunk_size) (drop (i * Z.to_nat chunk_size) f)
        /\ chunk <> [])
  /\ Z.of_nat (length (chunks_read chunk_size f))
     = (Z.of_nat (length f) + chunk_size - 1) / chunk_size.
Proof.
  intros Hpos. remember (length f) as n eqn:Hn.
  revert f Hn. induction (lt_wf n) as [n _ IH]. intros f ->.
  destruct f as [| b f].
  { rewrite chunks_read_empty. simpl. split; [done |]. split; [by intros [] |].
    symmetry. apply Z.div_small. lia. }
  rewrite chunks_read_step by done.
  set (k := Z.to_nat chunk_size). set (rest := drop k (b :: f)).
  assert (Hk : (0 < k)%nat) by (unfold k; lia).
  assert (Hlen : (length rest < length (b :: f))%nat)
    by (unfold rest; rewrite length_drop; simpl; lia).
  destruct (IH (length rest) Hlen rest eq_refl) as (Hcat & Hslices & Hcount).
  split; [| split].
  - simpl. rewrite Hcat. apply take_drop.
  - intros [| i] chunk; simpl.
    + intros [= <-]. split; [done |]. destruct k; [lia | done].
    + intros Hi. destruct (Hslices i chunk Hi) as [-> Hne]. split; [| done].
      unfold rest. rewrite drop_drop. reflexivity.
  - rewrite length_cons, Nat2Z.inj_succ, Hcount.
    set (L := Z.of_nat (length (b :: f))).
    assert (HL : 0 < L) by (unfold L; simpl; lia).
    assert (Hrest : Z.of_nat (length rest) = Z.max 0 (L - chunk_size))
      by (unfold rest, L; rewrite length_drop; lia).
    rewrite Hrest. destruct (Z.le_gt_cases L chunk_size).
    + rewrite Z.max_l by lia. rewrite (Z.div_small (0 + chunk_size - 1)) by lia.
      change (Z.succ 0) with 1. apply (Z.div_unique _ _ 1 (L - 1)); lia.
    + rewrite Z.max_r by lia.
      replace (L + chunk_size - 1) with (L - chunk_size + chunk_size - 1 + 1 * chunk_size)
        by lia.
      rewrite Z.div_add by lia. lia.
Qed.

Lemma chunks_read_slices_witness :
  concat (chunks_read 2 (String.list_byte_of_string "hello"))
  = String.list_byte_of_string "hello".
Proof. apply chunks_read_slices. lia. Defined.

Lemma slices_empty chunk_size : 0 < chunk_size -> slices chunk_size [] = [].
Proof.
  intros Hpos. unfold slices. simpl.
  rewrite (Z.div_small (0 + chunk_size - 1)) by lia. reflexivity.
Qed.

Lemma slices_step chunk_size f :
  0 < chunk_size -> f <> [] ->
  slices chunk_size f
  = take (Z.to_nat chunk_size) f :: slices chunk_size (drop (Z.to_nat chunk_size) f).
Proof.
  intros Hpos Hne. unfold slices. cbv zeta.
  set (k := Z.to_nat chunk_size). set (L := Z.of_nat (length f)).
  assert (HL : 0 < L) by (unfold L; destruct f; [done | simpl; lia]).
  assert (Hrest : Z.of_nat (length (drop k f)) = Z.max 0 (L - chunk_size))
    by (unfold L, k; rewrite length_drop; lia).
  assert (Hcount : Z.to_nat ((L + chunk_size - 1) / chunk_size)
                   = S (Z.to_nat ((Z.of_nat (length (drop k f)) + chunk_size - 1)
                                  / chunk_size))).
  { rewrite Hrest. destruct (Z.le_gt_cases L chunk_size).
    - rewrite Z.max_l by lia. rewrite (Z.div_small (0 + chunk_size - 1)) by lia.
      assert (Hone : (L + chunk_size - 1) / chunk_size = 1)
        by (symmetry; apply (Z.div_unique _ _ 1 (L - 1)); lia).
      rewrite Hone. reflexivity.
    - rewrite Z.max_r by lia.
      replace (L + chunk_size - 1) with (L - chunk_size + chunk_size - 1 + 1 * chunk_size)
        by lia.
      rewrite Z.div_add by lia.
      assert (0 <= (L - chunk_size + chunk_size - 1) / chunk_size)
        by (apply Z.div_pos; lia).
      lia. }
  rewrite Hcount. cbn [seq]. rewrite <- fmap_S_seq, fmap_cons, <- list_fmap_compose.
  f_equal. apply list_fmap_ext. intros _ i _. cbn [compose].
  rewrite drop_drop. reflexivity.
Qed.

Lemma chunks_read_are_slices chunk_size f :
  0 < chunk_size -> chunks_read chunk_size f = slices chunk_size f.
Proof.
  intros Hpos. remember (length f) as n eqn:Hn.
  revert f Hn. induction (lt_wf n) as [n _ IH]. intros f ->.
  destruct f as [| b f].
  { by rewrite chunks_read_empty, slices_empty. }
  rewrite chunks_read_step, slices_step by done. f_equal.
  apply (IH (length (drop (Z.to_nat chunk_size) (b :: f)))); [| reflexivity].
  rewrite length_drop. simpl. lia.
Qed.

(** X13: the loop of [HashReport.from_path] makes one pass over the
    file, whatever [update] does with a chunk: with a positive chunk
    size and from any state, it ends in the state reached by calling
    [update] once with each consecutive slice of [chunk_size] bytes of
    the file, in order, none skipped and none repeated.  Nothing is
    assumed of [update]. *)
Theorem read_loop_single_pass {A : Type} (update : A -> list Byte.byte -> A)
    chunk_size f acc :
  0 < chunk_size ->
  read_loop update chunk_size f acc = fold_left update (slices chunk_size f) acc.
Proof.
  intros Hpos. rewrite <- chunks_read_are_slices by done.
  exact (read_loop_fold_from update chunk_size (length f) f (le_n _) acc []).
Qed.

Lemma read_loop_single_pass_witness :
  read_loop (fun seen chunk => chunk :: seen) 2 (String.list_byte_of_string "hello") []
  = String.list_byte_of_string <$> ["o"; "ll"; "he"].
Proof.
  rewrite read_loop_single_pass by lia. reflexivity.
Defined.

(** ** Entropy, further *)

(** X15: an [EntropyReport] without percentages is constructed like any
    other, but its [highest] and [lowest] raise [ValueError]. *)
Theorem EntropyReport_empty_percentages (block_size mean : pyval) :
  exists r,
    attrs.init EntropyReport (list_to_map
      [("percentages", VList []); ("block_size", block_size); ("mean", mean)]) = Ok r
    /\ EntropyReport_highest r = Raise (ValueError [VStr "max() arg is an empty sequence"])
    /\ EntropyReport_lowest r = Raise (ValueError [VStr "min() arg is an empty sequence"]).
Proof. eexists. split; [apply EntropyReport_init |]. done. Qed.



(** ** Serialization, further *)

(** X17: the keys of the dictionary [asdict] returns for a constructed
    report are the names of the attributes of its class, inherited ones
    first, in the order they are declared. *)
Theorem asdict_keys_are_field_names cls kwargs r entries :
  attrs.init cls kwargs = Ok r ->
  Report_asdict r = Ok (VDict entries) ->
  entries.*1 = VStr <$> field_names cls.
Proof.
  intros (_ & slots & -> & Hall)%init_slots Hdict.
  unfold Report_asdict, attrs.asdict in Hdict. rewrite asdict_anything_inst in Hdict.
  destruct (mapM convert_slot slots) as [rv |] eqn:Hrv; [| discriminate].
  cbn [mbind result_bind] in Hdict. injection Hdict as <-.
  rewrite (mapM_result_fst convert_slot _ fst _ _ convert_slot_key Hrv).
  unfold field_names. rewrite <- (slots_names _ _ _ Hall).
  by rewrite <- list_fmap_compose.
Qed.

Lemma asdict_keys_are_field_names_witness :
  [VStr "severity"; VStr "exception"; VStr "start_offset"; VStr "handler"]
  = VStr <$> field_names CalculateChunkExceptionReport.
Proof.
  apply (asdict_keys_are_field_names CalculateChunkExceptionReport
           (list_to_map [("exception", VStr "boom"); ("start_offset", VInt 64);
                         ("handler", VStr "zip")])
           (VInst "CalculateChunkExceptionReport"
              [("severity", VSeverity ERROR); ("exception", VStr "boom");
               ("start_offset", VInt 64); ("handler", VStr "zip")])
           [(VStr "severity", VSeverity ERROR); (VStr "exception", VStr "boom");
            (VStr "start_offset", VInt 64); (VStr "handler", VStr "zip")]).
  - vm_compute. reflexivity.
  - vm_compute. reflexivity.
Defined.

Lemma asdict_anything_scalar is_key v :
  is_scalar v = true -> attrs.asdict_anything is_key v = Ok v.
Proof. by destruct v. Qed.

Lemma mapM_scalars l :
  Forall (fun v => is_scalar v = true) l -> mapM (attrs.asdict_anything false) l = Ok l.
Proof.
  intros Hall. apply mapM_result_Forall2. induction Hall; constructor; [| done].
  by apply asdict_anything_scalar.
Qed.

(** X18: [asdict] keeps every attribute value that holds no other value
    as it is (bytes stay bytes, a path a path, a severity the member of
    the enumeration), and turns a list or a set of such values into the
    list of them, in order. *)
Theorem asdict_keeps_scalars cn slots entries :
  Report_asdict (VInst cn slots) = Ok (VDict entries) ->
  Forall2 (fun kv e =>
             e.1 = VStr kv.1
             /\ (is_scalar kv.2 = true -> e.2 = kv.2)
             /\ (forall l, kv.2 = VList l \/ kv.2 = VSet l ->
                           Forall (fun v => is_scalar v = true) l -> e.2 = VList l))
          slots entries.
Proof.
  unfold Report_asdict, attrs.asdict. rewrite asdict_anything_inst.
  destruct (mapM convert_slot slots) as [rv |] eqn:Hrv; [| discriminate].
  cbn [mbind result_bind]. intros H. injection H as <-.
  apply mapM_result_Forall2 in Hrv.
  eapply Forall2_impl; [exact Hrv |]. intros [k v] e Hconv.
  pose proof (convert_slot_key _ _ Hconv) as Hkey. split; [done |].
  unfold convert_slot in Hconv. cbn [fst snd] in *. split.
  - intros Hs. rewrite (asdict_anything_scalar _ _ Hs) in Hconv.
    cbn [mbind result_bind] in Hconv. by injection Hconv as <-.
  - intros l [-> | ->] Hl.
    + rewrite asdict_anything_list in Hconv. unfold convert_items in Hconv.
      rewrite (mapM_scalars _ Hl) in Hconv. cbn [mbind result_bind] in Hconv.
      by injection Hconv as <-.
    + rewrite asdict_anything_set in Hconv. unfold convert_items in Hconv.
      rewrite (mapM_scalars _ Hl) in Hconv. cbn [mbind result_bind] in Hconv.
      by injection Hconv as <-.
Qed.

Lemma asdict_keeps_scalars_witness :
  let slots := [("severity", VSeverity ERROR);
                ("paths", VSet [VPath "/a/x.bin"; VPath "/a/y.bin"]);
                ("handler", VStr "multi")] in
  Forall2 (fun kv e =>
             e.1 = VStr kv.1
             /\ (is_scalar kv.2 = true -> e.2 = kv.2)
             /\ (forall l, kv.2 = VList l \/ kv.2 = VSet l ->
                           Forall (fun v => is_scalar v = true) l -> e.2 = VList l))
          slots
          [(VStr "severity", VSeverity ERROR);
           (VStr "paths", VList [VPath "/a/x.bin"; VPath "/a/y.bin"]);
           (VStr "handler", VStr "multi")].
Proof.
  apply (asdict_keeps_scalars "MultiFileCollisionReport"). reflexivity.
Defined.

(** X19: a list of reports in an attribute (the [extraction_reports] of
    a chunk or of a multi-file report) becomes the list of what [asdict]
    returns for each of them, in order. *)
Theorem asdict_nested_reports cn slots entries :
  Report_asdict (VInst cn slots) = Ok (VDict entries) ->
  Forall2 (fun kv e =>
             forall l, kv.2 = VList l ->
                       Forall (fun v => is_instance v = true) l ->
                       exists ds, e = (VStr kv.1, VList ds)
                                  /\ Forall2 (fun r d => Report_asdict r = Ok d) l ds)
          slots entries.
Proof.
  unfold Report_asdict at 1, attrs.asdict. rewrite asdict_anything_inst.
  destruct (mapM convert_slot slots) as [rv |] eqn:Hrv; [| discriminate].
  cbn [mbind result_bind]. intros H. injection H as <-.
  apply mapM_result_Forall2 in Hrv.
  eapply Forall2_impl; [exact Hrv |]. intros [k v] e Hconv l Hv Hl.
  cbn [fst snd] in *. subst v.
  unfold convert_slot in Hconv. cbn [fst snd] in Hconv.
  rewrite asdict_anything_list in Hconv. unfold convert_items in Hconv.
  destruct (mapM (attrs.asdict_anything false) l) as [ds |] eqn:Hds; [| discriminate].
  cbn [mbind result_bind] in Hconv. injection Hconv as <-.
  exists ds. split; [done |]. apply mapM_result_Forall2 in Hds.
  clear Hrv. induction Hds as [| x d l ds Hx _ IH]; [constructor |].
  inversion Hl; subst. constructor; [| by apply IH].
  destruct x; try discriminate. exact Hx.
Qed.

Lemma asdict_nested_reports_witness :
  exists entries,
    Report_asdict example_chunk = Ok (VDict entries)
    /\ Forall2 (fun kv e =>
                  forall l, kv.2 = VList l ->
                            Forall (fun v => is_instance v = true) l ->
                            exists ds, e = (VStr kv.1, VList ds)
                                       /\ Forall2 (fun r d => Report_asdict r = Ok d) l ds)
               [("id", VStr "c0"); ("handler_name", VStr "zip");
                ("start_offset", VInt 0); ("end_offset", VInt 512); ("size", VInt 512);
                ("is_encrypted", VBool false);
                ("extraction_reports",
                 VList [VInst "MaliciousSymlinkRemoved"
                          [("severity", VSeverity WARNING); ("link", VStr "out/link");
                           ("target", VStr "/etc/passwd")]])]
               entries.
Proof.
  eexists. split; [vm_compute; reflexivity |].
  apply (asdict_nested_reports "ChunkReport"). vm_compute. reflexivity.
Defined.
